(** * AURA line-item intake handler (AWS/add-line-items.py)

    A shallow embedding of the Lambda handler [lambda_handler] and of its
    helper [_agent_error], together with the small part of the Python
    run time and of the psycopg2 session they rely on.

    Modelling boundaries, stated once:
    - a Python [str] is its UTF-8 byte sequence (a [string] of Rocq);
      concatenation and emptiness agree with Python's on that encoding;
    - Python values are the JSON-decoded ones; a float is its sign,
      mantissa and exponent, or an infinity, or NaN;
    - integers are unbounded ([Z]); the interpreter's optional cap on the
      number of digits of a decimal conversion is a run-time setting and
      is left out;
    - [int()] is written out for ASCII text; what it gives on text with
      other characters, and the text form [str()] gives to lists, dicts
      and floats, are taken from a [runtime] record that every
      definition receives, so that nothing proved depends on them;
    - the server's answers during one invocation are a [Db.server]
      record: each call goes through or raises an exception with a text;
    - closing a cursor or a connection does not raise;
    - the two [logger.info] calls and the [logger.error] call change
      nothing the handler returns or stores and are left out. *)

From Stdlib Require Import ZArith List String Ascii Bool Lia.
From Stdlib Require Import DecimalString DecimalPos Permutation.
Import ListNotations.

Local Open Scope string_scope.
Local Open Scope Z_scope.

(* ================================================================== *)
(** ** Python values *)
(* ================================================================== *)

Module Py.

(** A float: [FFinite s m e] is the number of sign [s] (true for minus)
    and magnitude [m * 2^e]; every binary64 number other than the zeros,
    the infinities and NaN is of this form. *)
Inductive pyfloat : Type :=
| FZero (negative : bool)
| FFinite (negative : bool) (m : positive) (e : Z)
| FInf (negative : bool)
| FNaN.

#[warnings="-register-all"]
Inductive pyval : Type :=
| VNone
| VBool (b : bool)
| VInt (n : Z)
| VFloat (f : pyfloat)
| VStr (s : string)
| VList (items : list pyval)
| VDict (entries : list (pyval * pyval)).

(** A dict is its list of entries in insertion order. *)
Definition pydict : Type := list (pyval * pyval).

Inductive exn : Type :=
| KeyError (key : string)
| TypeError
| AttributeError
| ValueError
| OverflowError.

(** What evaluating a piece of Python gives. *)
Inductive result (A : Type) : Type :=
| Return (a : A)
| Raise (e : exn).

Arguments Return {A} a.
Arguments Raise {A} e.

Definition bind {A B : Type} (m : result A) (k : A -> result B) : result B :=
  match m with
  | Return a => k a
  | Raise e => Raise e
  end.

(** The interpreter facts the model does not spell out:
    [int_of_unicode s] is [int(s)] for a text [s] with a character outside
    ASCII ([None] is ValueError), [container_text v] is [str(v)] for a
    list or dict [v], [float_text f] is [str(f)] for a float [f]. *)
Record runtime : Type := mkruntime {
  int_of_unicode : string -> option Z;
  container_text : pyval -> string;
  float_text : pyfloat -> string
}.

(** [bool(v)]: None, False, 0, 0.0, the empty string and empty
    containers are falsy; NaN and the infinities are truthy. *)
Definition truthy (v : pyval) : bool :=
  match v with
  | VNone => false
  | VBool b => b
  | VInt n => negb (n =? 0)
  | VFloat (FZero _) => false
  | VFloat _ => true
  | VStr EmptyString => false
  | VStr (String _ _) => true
  | VList [] => false
  | VList (_ :: _) => true
  | VDict [] => false
  | VDict (_ :: _) => true
  end.

Definition isinstance_list (v : pyval) : bool :=
  match v with
  | VList _ => true
  | _ => false
  end.

(** *** Dict keys: hashing and equality *)

(** Keys compare as Python compares them: [True == 1] and [False == 0],
    a float equals the integer of the same value ([1.0 == 1]), strings
    by content; lists and dicts are unhashable.  A float that is no
    integer is told by its sign, its odd mantissa and the exponent that
    goes with it; the NaN of the JSON decoder is one object, equal to
    itself as a key. *)
Inductive keyclass : Type :=
| KNone
| KNum (n : Z)
| KFraction (negative : bool) (m : positive) (e : Z)
| KInf (negative : bool)
| KNaN
| KStr (s : string).

(** [m] as an odd number times a power of two. *)
Fixpoint odd_part (m : positive) : positive * Z :=
  match m with
  | xO m' => let (q, k) := odd_part m' in (q, k + 1)
  | _ => (m, 0)
  end.

Definition float_class (f : pyfloat) : keyclass :=
  match f with
  | FZero _ => KNum 0
  | FFinite s m e =>
      let (q, k) := odd_part m in
      if 0 <=? e + k
      then KNum (if s then - Z.shiftl (Z.pos q) (e + k)
                 else Z.shiftl (Z.pos q) (e + k))
      else KFraction s q (e + k)
  | FInf s => KInf s
  | FNaN => KNaN
  end.

Definition key_class (v : pyval) : option keyclass :=
  match v with
  | VNone => Some KNone
  | VBool b => Some (KNum (Z.b2z b))
  | VInt n => Some (KNum n)
  | VFloat f => Some (float_class f)
  | VStr s => Some (KStr s)
  | VList _ => None
  | VDict _ => None
  end.

Definition hashable (v : pyval) : bool :=
  match key_class v with
  | Some _ => true
  | None => false
  end.

Definition keyclass_eqb (a b : keyclass) : bool :=
  match a, b with
  | KNone, KNone => true
  | KNum m, KNum n => m =? n
  | KFraction s m e, KFraction s' m' e' =>
      Bool.eqb s s' && (m =? m')%positive && (e =? e')
  | KInf s, KInf s' => Bool.eqb s s'
  | KNaN, KNaN => true
  | KStr s, KStr t => (s =? t)%string
  | _, _ => false
  end.

Definition key_eqb (a b : pyval) : bool :=
  match key_class a, key_class b with
  | Some x, Some y => keyclass_eqb x y
  | _, _ => false
  end.

(** *** Dict operations *)

Fixpoint dict_lookup (d : pydict) (k : pyval) : option pyval :=
  match d with
  | [] => None
  | (k', v) :: d' => if key_eqb k' k then Some v else dict_lookup d' k
  end.

(** [d.get(k, default)] *)
Definition dict_get (d : pydict) (k : string) (default : pyval) : pyval :=
  match dict_lookup d (VStr k) with
  | Some v => v
  | None => default
  end.

(** [d[k] = v]: an existing key keeps its place and gets the new value. *)
Fixpoint dict_setitem (d : pydict) (k v : pyval) : pydict :=
  match d with
  | [] => [(k, v)]
  | (k', v') :: d' =>
      if key_eqb k' k then (k', v) :: d'
      else (k', v') :: dict_setitem d' k v
  end.

(** [obj[k]] for a string [k]: only a dict can be indexed by a string. *)
Definition getitem (obj : pyval) (k : string) : result pyval :=
  match obj with
  | VDict d =>
      match dict_lookup d (VStr k) with
      | Some v => Return v
      | None => Raise (KeyError k)
      end
  | _ => Raise TypeError
  end.

(** *** Text *)

Definition str_of_int (n : Z) : string :=
  NilZero.string_of_int (Z.to_int n).

(** [str(v)], as an f-string field renders it. *)
Definition str (rt : runtime) (v : pyval) : string :=
  match v with
  | VNone => "None"
  | VBool true => "True"
  | VBool false => "False"
  | VInt n => str_of_int n
  | VFloat f => float_text rt f
  | VStr s => s
  | VList _ => container_text rt v
  | VDict _ => container_text rt v
  end.

(** [sep.join(parts)] *)
Fixpoint join (sep : string) (parts : list string) : string :=
  match parts with
  | [] => ""
  | [p] => p
  | p :: rest => p ++ sep ++ join sep rest
  end.

(** *** [int(text)] in base 10 *)

Definition code (c : ascii) : N := N_of_ascii c.

(** The C-locale white space the integer parser skips. *)
Definition is_space (c : ascii) : bool :=
  ((9 <=? code c) && (code c <=? 13) || (code c =? 32))%N.

Definition digit_value (c : ascii) : option Z :=
  if ((48 <=? code c) && (code c <=? 57))%N
  then Some (Z.of_N (code c) - 48)
  else None.

Definition is_underscore (c : ascii) : bool := (code c =? 95)%N.

Fixpoint is_ascii_text (s : string) : bool :=
  match s with
  | EmptyString => true
  | String c s' => (code c <? 128)%N && is_ascii_text s'
  end.

Fixpoint skip_spaces (s : string) : string :=
  match s with
  | String c s' => if is_space c then skip_spaces s' else s
  | EmptyString => s
  end.

(** Digits with single underscores between them.  Gives the value read,
    the number of digits and the unread rest; [None] on two underscores
    in a row or an underscore at the end of the run. *)
Fixpoint scan_digits (s : string) (prev_underscore : bool) (acc : Z) (digits : nat)
  : option (Z * nat * string) :=
  match s with
  | EmptyString => if prev_underscore then None else Some (acc, digits, s)
  | String c s' =>
      if is_underscore c then
        if prev_underscore then None else scan_digits s' true acc digits
      else
        match digit_value c with
        | Some d => scan_digits s' false (10 * acc + d) (S digits)
        | None => if prev_underscore then None else Some (acc, digits, s)
        end
  end.

Definition split_sign (s : string) : Z * string :=
  match s with
  | String "+" s' => (1, s')
  | String "-" s' => (-1, s')
  | _ => (1, s)
  end.

Definition starts_with_underscore (s : string) : bool :=
  match s with
  | String c _ => is_underscore c
  | EmptyString => false
  end.

(** The parse of ASCII text: white space, an optional sign, the digits,
    white space, and nothing more. *)
Definition int_of_ascii (s : string) : result Z :=
  let '(sign, body) := split_sign (skip_spaces s) in
  if starts_with_underscore body then Raise ValueError
  else
    match scan_digits body false 0 0 with
    | None => Raise ValueError
    | Some (n, digits, rest) =>
        match digits with
        | O => Raise ValueError
        | S _ =>
            match skip_spaces rest with
            | EmptyString => Return (sign * n)
            | String _ _ => Raise ValueError
            end
        end
    end.

Definition int_of_str (rt : runtime) (s : string) : result Z :=
  if is_ascii_text s then int_of_ascii s
  else
    match int_of_unicode rt s with
    | Some n => Return n
    | None => Raise ValueError
    end.

(** [int(f)]: the fraction is cut off, toward zero; NaN is a ValueError
    and an infinity an OverflowError. *)
Definition int_of_float (f : pyfloat) : result Z :=
  match f with
  | FZero _ => Return 0
  | FFinite s m e =>
      Return (if s then - Z.shiftl (Z.pos m) e else Z.shiftl (Z.pos m) e)
  | FInf _ => Raise OverflowError
  | FNaN => Raise ValueError
  end.

(** [int(v)] *)
Definition int (rt : runtime) (v : pyval) : result Z :=
  match v with
  | VStr s => int_of_str rt s
  | VInt n => Return n
  | VBool b => Return (Z.b2z b)
  | VFloat f => int_of_float f
  | VNone => Raise TypeError
  | VList _ => Raise TypeError
  | VDict _ => Raise TypeError
  end.

End Py.

Import Py.

Declare Scope py_scope.
Delimit Scope py_scope with py.
Notation "x <- m ;; k" := (bind m (fun x => k))
  (at level 100, m at next level, right associativity) : py_scope.
Local Open Scope py_scope.

(** [obj.get(k, default)]: only a dict has the method. *)
Definition get (obj : pyval) (k : string) (default : pyval) : result pyval :=
  match obj with
  | VDict d => Return (dict_get d k default)
  | _ => Raise AttributeError
  end.

(** A dict display with string keys (all keys below are distinct). *)
Definition dict_of (entries : list (string * pyval)) : pyval :=
  VDict (map (fun kv => (VStr (fst kv), snd kv)) entries).

(** [v[k]] when there is one, for reading a response. *)
Definition field (v : pyval) (k : string) : option pyval :=
  match v with
  | VDict d => dict_lookup d (VStr k)
  | _ => None
  end.

Fixpoint path (v : pyval) (ks : list string) : option pyval :=
  match ks with
  | [] => Some v
  | k :: ks' =>
      match field v k with
      | Some v' => path v' ks'
      | None => None
      end
  end.

(** Does [k] occur as a key of [v], at any depth? *)
Fixpoint mentions_key (k : string) (v : pyval) : bool :=
  match v with
  | VList items => existsb (mentions_key k) items
  | VDict entries =>
      existsb (fun kv => match kv with
                         | (k', v') => key_eqb k' (VStr k) || mentions_key k v'
                         end) entries
  | _ => false
  end.

(* ================================================================== *)
(** ** The database session (psycopg2) *)
(* ================================================================== *)

Module Db.

(** A row of [requisitions_lineitems]. *)
Record row : Type := mkrow {
  requisition_id : pyval;
  item_name : pyval;
  material_code : pyval;
  quantity : Z;
  created_at : Z
}.

(** The calls that went through. *)
Inductive call : Type :=
| Connect
| OpenCursor
| Execute (r : row)
| Commit
| CloseCursor
| CloseConnection.

(** The committed table and the calls made so far. *)
Record world : Type := mkworld {
  table : list row;
  calls : list call
}.

(** How the server answers during one invocation: [Some text] is the
    exception a call raises, [text] being its [str()]; [utcnow] is the
    clock. *)
Record server : Type := mkserver {
  connect_error : option string;
  cursor_error : option string;
  execute_error : row -> option string;
  commit_error : option string;
  utcnow : Z
}.

Inductive connection : Type := Connection.
Inductive cursor : Type := Cursor.

(** Step 4 at run time: the local variables [conn] and [cur], the rows of
    the open transaction, and the world. *)
Record frame : Type := mkframe {
  conn : option connection;
  cur : option cursor;
  transaction : list row;
  db : world
}.

(** A statement of the [try] block: it raises (left, the error text) or
    goes on (right). *)
Definition stmt (A : Type) : Type := frame -> frame * (string + A).

Definition seq {A B : Type} (m : stmt A) (k : A -> stmt B) : stmt B :=
  fun f =>
    match m f with
    | (f', inr a) => k a f'
    | (f', inl err) => (f', inl err)
    end.

Definition record_call (c : call) (w : world) : world :=
  mkworld (table w) (calls w ++ [c]).

(** [psycopg2.connect(...)] *)
Definition connect_db (srv : server) : stmt connection :=
  fun f =>
    match connect_error srv with
    | Some err => (f, inl err)
    | None =>
        (mkframe (conn f) (cur f) [] (record_call Connect (db f)),
         inr Connection)
    end.

Definition set_conn (c : connection) : stmt unit :=
  fun f => (mkframe (Some c) (cur f) (transaction f) (db f), inr tt).

Definition set_cur (k : cursor) : stmt unit :=
  fun f => (mkframe (conn f) (Some k) (transaction f) (db f), inr tt).

(** [conn.cursor()] *)
Definition conn_cursor (srv : server) (c : connection) : stmt cursor :=
  fun f =>
    match cursor_error srv with
    | Some err => (f, inl err)
    | None =>
        (mkframe (conn f) (cur f) (transaction f) (record_call OpenCursor (db f)),
         inr Cursor)
    end.

(** [cur.execute(insert_sql, values)]: the row joins the open
    transaction. *)
Definition cur_execute (srv : server) (k : cursor) (r : row) : stmt unit :=
  fun f =>
    match execute_error srv r with
    | Some err => (f, inl err)
    | None =>
        (mkframe (conn f) (cur f) (transaction f ++ [r])
           (record_call (Execute r) (db f)),
         inr tt)
    end.

(** [conn.commit()]: the open transaction reaches the table. *)
Definition conn_commit (srv : server) (c : connection) : stmt unit :=
  fun f =>
    match commit_error srv with
    | Some err => (f, inl err)
    | None =>
        (mkframe (conn f) (cur f) []
           (record_call Commit
              (mkworld (table (db f) ++ transaction f) (calls (db f)))),
         inr tt)
    end.

(** [cur.close()] *)
Definition cur_close (k : cursor) (f : frame) : frame :=
  mkframe (conn f) (cur f) (transaction f) (record_call CloseCursor (db f)).

(** [conn.close()]: what was not committed is dropped. *)
Definition conn_close (c : connection) (f : frame) : frame :=
  mkframe (conn f) (cur f) [] (record_call CloseConnection (db f)).

(** The [try] block of step 4. *)
Definition try_block (srv : server) (rid name mcode : pyval) (quantity_int : Z)
  : stmt unit :=
  seq (connect_db srv) (fun c =>
  seq (set_conn c) (fun _ =>
  seq (conn_cursor srv c) (fun k =>
  seq (set_cur k) (fun _ =>
  seq (cur_execute srv k (mkrow rid name mcode quantity_int (utcnow srv))) (fun _ =>
  conn_commit srv c))))).

(** The [finally] block: [if cur: cur.close()], [if conn: conn.close()]. *)
Definition finally_block (f : frame) : frame :=
  let f1 := match cur f with Some k => cur_close k f | None => f end in
  match conn f1 with Some c => conn_close c f1 | None => f1 end.

(** Step 4 as a whole: [conn = cur = None], the [try] block, and the
    [finally] block on either way out.  [Some err] is the exception the
    [except] clause caught. *)
Definition insert_line_item (srv : server) (rid name mcode : pyval)
  (quantity_int : Z) (w : world) : world * option string :=
  match try_block srv rid name mcode quantity_int (mkframe None None [] w) with
  | (f, inr _) => (db (finally_block f), None)
  | (f, inl err) => (db (finally_block f), Some err)
  end.

Fixpoint count_calls (p : call -> bool) (l : list call) : nat :=
  match l with
  | [] => O
  | c :: l' => if p c then S (count_calls p l') else count_calls p l'
  end.

Definition is_connect (c : call) : bool :=
  match c with Connect => true | _ => false end.

Definition is_open_cursor (c : call) : bool :=
  match c with OpenCursor => true | _ => false end.

Definition is_close_cursor (c : call) : bool :=
  match c with CloseCursor => true | _ => false end.

Definition is_close_connection (c : call) : bool :=
  match c with CloseConnection => true | _ => false end.

End Db.

(* ================================================================== *)
(** ** The handler *)
(* ================================================================== *)

(** The no-break space U+00A0 that the source has between [Qty] and the
    number, in UTF-8. *)
Definition nbsp : string :=
  String (ascii_of_nat 194) (String (ascii_of_nat 160) EmptyString).

Definition default_status_code : Z := 400.

(** [_agent_error(event, message, status_code=400)]; [None] is the
    argument left out. *)
Definition _agent_error (event : pydict) (message : string)
  (status_code : option Z) : pyval :=
  dict_of [
    ("messageVersion", VStr "1.0");
    ("response", dict_of [
      ("actionGroup", dict_get event "actionGroup" VNone);
      ("function", dict_get event "function" VNone);
      ("functionResponse", dict_of [
        ("responseBody", dict_of [
          ("TEXT", dict_of [("body", VStr message)])
        ])
      ])
    ]);
    ("statusCode", VInt (match status_code with
                         | Some c => c
                         | None => default_status_code
                         end))
  ].

(** [{param['name']: param['value'] for param in params}] *)
Fixpoint dict_comprehension (params : list pyval) (acc : pydict) : result pydict :=
  match params with
  | [] => Return acc
  | param :: rest =>
      name <- getitem param "name" ;;
      value <- getitem param "value" ;;
      if hashable name
      then dict_comprehension rest (dict_setitem acc name value)
      else Raise TypeError
  end.

(** Step 1. *)
Definition normalize_parameters (event : pydict) : result pyval :=
  if isinstance_list (dict_get event "parameters" VNone) then
    params <- getitem (VDict event) "parameters" ;;
    match params with
    | VList items => d <- dict_comprehension items [] ;; Return (VDict d)
    | _ => Raise TypeError
    end
  else Return (dict_get event "parameters" (VDict [])).

Definition required_fields : list string :=
  ["requisition_id"; "item_name"; "quantity"].

(** [[k for k in keys if not parameters.get(k)]] *)
Fixpoint missing_fields (parameters : pyval) (keys : list string)
  : result (list string) :=
  match keys with
  | [] => Return []
  | k :: keys' =>
      v <- get parameters k VNone ;;
      rest <- missing_fields parameters keys' ;;
      Return (if truthy v then rest else k :: rest)
  end.

(** Where steps 1 to 3 leave the handler: it has returned, or it goes on
    to step 4 with these values. *)
Inductive validated : Type :=
| Rejected (response : pyval)
| Accepted (requisition_id item_name material_code : pyval) (quantity_int : Z).

(** Steps 1 to 3. *)
Definition validate (rt : runtime) (event : pydict) : result validated :=
  parameters <- normalize_parameters event ;;
  requisition_id <- get parameters "requisition_id" (VStr "") ;;
  item_name <- get parameters "item_name" (VStr "") ;;
  quantity <- get parameters "quantity" (VStr "") ;;
  material_code <- get parameters "material_code" (VStr "") ;;
  missing <- missing_fields parameters required_fields ;;
  match missing with
  | _ :: _ =>
      Return (Rejected (_agent_error event
                ("Missing required field(s): " ++ join ", " missing) (Some 400)))
  | [] =>
      match int rt quantity with
      | Return quantity_int =>
          Return (Accepted requisition_id item_name material_code quantity_int)
      | Raise ValueError =>
          Return (Rejected (_agent_error event "Quantity must be an integer"
                              (Some 400)))
      | Raise e => Raise e
      end
  end.

(** Step 5. *)
Definition success_response (rt : runtime) (event : pydict)
  (requisition_id item_name material_code : pyval) (quantity_int : Z) : pyval :=
  let body_text :=
    "✓ Added '" ++ str rt item_name ++ "' (Qty" ++ nbsp
      ++ str_of_int quantity_int ++ ") to requisition "
      ++ str rt requisition_id ++ "." in
  dict_of [
    ("messageVersion", VStr "1.0");
    ("response", dict_of [
      ("actionGroup", dict_get event "actionGroup" VNone);
      ("function", dict_get event "function" VNone);
      ("functionResponse", dict_of [
        ("responseBody", dict_of [
          ("TEXT", dict_of [("body", VStr body_text)]);
          ("requisition_id", requisition_id);
          ("item_name", item_name);
          ("quantity", VStr (str_of_int quantity_int));
          ("material_code", material_code)
        ])
      ])
    ])
  ].

Definition lambda_handler (rt : runtime) (srv : Db.server) (event : pydict)
  (w : Db.world) : Db.world * result pyval :=
  match validate rt event with
  | Raise e => (w, Raise e)
  | Return (Rejected response) => (w, Return response)
  | Return (Accepted requisition_id item_name material_code quantity_int) =>
      match Db.insert_line_item srv requisition_id item_name material_code
              quantity_int w with
      | (w', Some err) =>
          (w', Return (_agent_error event ("Database error: " ++ err) (Some 500)))
      | (w', None) =>
          (w', Return (success_response rt event requisition_id item_name
                         material_code quantity_int))
      end
  end.

(* ================================================================== *)
(** ** Definitions used to state the properties *)
(* ================================================================== *)

(** The fields of [keys] that are absent from [p] or falsy there, in the
    order of [keys]. *)
Definition absent_or_falsy (p : pydict) (keys : list string) : list string :=
  filter (fun k => negb (truthy (dict_get p k VNone))) keys.

(** The value of the last pair named [k], reading [pairs] from left to
    right: last-seen-wins. *)
Fixpoint last_seen (pairs : list (pyval * pyval)) (k : pyval) : option pyval :=
  match pairs with
  | [] => None
  | (name, value) :: rest =>
      match last_seen rest k with
      | Some later => Some later
      | None => if key_eqb name k then Some value else None
      end
  end.

(** [param] is an object whose [name] and [value] are those of [pair]. *)
Definition is_pair (param : pyval) (pair : pyval * pyval) : Prop :=
  getitem param "name" = Return (fst pair) /\
  getitem param "value" = Return (snd pair).

(** The success text of the source. *)
Definition body_text (item_name quantity requisition_id : string) : string :=
  "✓ Added '" ++ item_name ++ "' (Qty" ++ nbsp ++ quantity
    ++ ") to requisition " ++ requisition_id ++ ".".

(** The server answers every call. *)
Definition succeeds (srv : Db.server) (r : Db.row) : Prop :=
  Db.connect_error srv = None /\ Db.cursor_error srv = None /\
  Db.execute_error srv r = None /\ Db.commit_error srv = None.

(** The calls of a session that inserts [r] and commits. *)
Definition full_session (r : Db.row) : list Db.call :=
  [Db.Connect; Db.OpenCursor; Db.Execute r; Db.Commit; Db.CloseCursor;
   Db.CloseConnection].

(** No two pairs have equal names. *)
Fixpoint distinct_names (pairs : list (pyval * pyval)) : Prop :=
  match pairs with
  | [] => True
  | (name, _) :: rest =>
      Forall (fun other => key_eqb name (fst other) = false) rest /\
      distinct_names rest
  end.

Definition is_container (v : pyval) : bool :=
  match v with
  | VList _ => true
  | VDict _ => true
  | _ => false
  end.

Definition is_infinite (v : pyval) : bool :=
  match v with
  | VFloat (FInf _) => true
  | _ => false
  end.

(** The integers a request can carry: CPython from 3.11 on neither reads
    nor prints a decimal of more than 4300 digits. *)
Definition max_str_digits : Z := 4300.

Definition printable (v : pyval) : Prop :=
  match v with
  | VInt n => Z.abs n < 10 ^ max_str_digits
  | _ => True
  end.

(** The shapes of the [parameters] field that step 1 turns into a dict:
    no field at all, a mapping, or a sequence of objects that each have a
    [name] that can be a key and a [value]. *)
Inductive well_shaped (event : pydict) : Prop :=
| shape_absent :
    dict_lookup event (VStr "parameters") = None -> well_shaped event
| shape_mapping (m : pydict) :
    dict_lookup event (VStr "parameters") = Some (VDict m) -> well_shaped event
| shape_sequence (items : list pyval) (pairs : list (pyval * pyval)) :
    dict_lookup event (VStr "parameters") = Some (VList items) ->
    Forall2 is_pair items pairs ->
    Forall (fun pair => hashable (fst pair) = true) pairs ->
    well_shaped event.

(** The two envelopes of the handler. *)
Definition is_error_envelope (event : pydict) (response : pyval) : Prop :=
  exists (message : string) (status : Z),
    (status = 400 \/ status = 500) /\
    response = _agent_error event message (Some status).

Definition is_success_envelope (rt : runtime) (event : pydict) (response : pyval)
  : Prop :=
  exists (requisition_id item_name material_code : pyval) (quantity_int : Z),
    response = success_response rt event requisition_id item_name material_code
                 quantity_int.

(** The number a run of decimal digits denotes, read from the left with
    [acc] the value of the digits before it. *)
Fixpoint digits_value (d : Decimal.uint) (acc : Z) : Z :=
  match d with
  | Decimal.Nil => acc
  | Decimal.D0 d' => digits_value d' (10 * acc + 0)
  | Decimal.D1 d' => digits_value d' (10 * acc + 1)
  | Decimal.D2 d' => digits_value d' (10 * acc + 2)
  | Decimal.D3 d' => digits_value d' (10 * acc + 3)
  | Decimal.D4 d' => digits_value d' (10 * acc + 4)
  | Decimal.D5 d' => digits_value d' (10 * acc + 5)
  | Decimal.D6 d' => digits_value d' (10 * acc + 6)
  | Decimal.D7 d' => digits_value d' (10 * acc + 7)
  | Decimal.D8 d' => digits_value d' (10 * acc + 8)
  | Decimal.D9 d' => digits_value d' (10 * acc + 9)
  end.

(** Reading what the handler gave back; nothing is read off an
    exception. *)
Definition response_path (out : result pyval) (ks : list string) : option pyval :=
  match out with
  | Return response => path response ks
  | Raise _ => None
  end.

Definition text_body_path : list string :=
  ["response"; "functionResponse"; "responseBody"; "TEXT"; "body"].

Definition response_body_path : list string :=
  ["response"; "functionResponse"; "responseBody"].

(** *** Concrete requests *)

(** A run time for requests made of ASCII text: neither field is looked
    at on them. *)
Definition ascii_runtime : runtime :=
  mkruntime (fun _ => None) (fun _ => "") (fun _ => "").

Definition good_server : Db.server :=
  Db.mkserver None None (fun _ => None) None 1700000000.

Definition unreachable_server : Db.server :=
  Db.mkserver (Some "could not connect to server") None (fun _ => None) None
    1700000000.

Definition empty_world : Db.world := Db.mkworld [] [].

Definition param (name value : string) : pyval :=
  dict_of [("name", VStr name); ("type", VStr "string"); ("value", VStr value)].

Definition request (parameters : pyval) : pydict :=
  [(VStr "actionGroup", VStr "requisitions");
   (VStr "function", VStr "add_line_item");
   (VStr "parameters", parameters)].

(** [requisition_id="REQ1"], [item_name="Bolt"], the given [quantity],
    [material_code="MC5"], in the sequence form. *)
Definition bolt_request (quantity : string) : pydict :=
  request (VList [param "requisition_id" "REQ1"; param "item_name" "Bolt";
                  param "quantity" quantity; param "material_code" "MC5"]).

(** The same without [material_code], in the mapping form. *)
Definition bolt_mapping : pydict :=
  request (dict_of [("requisition_id", VStr "REQ1"); ("item_name", VStr "Bolt");
                    ("quantity", VStr "10")]).

(** The request of [bolt_request "10"] with an object that has a
    [statusCode] as its [actionGroup]. *)
Definition nested_status_request : pydict :=
  [(VStr "actionGroup", dict_of [("statusCode", VInt 200)]);
   (VStr "function", VStr "add_line_item");
   (VStr "parameters",
    VList [param "requisition_id" "REQ1"; param "item_name" "Bolt";
           param "quantity" "10"; param "material_code" "MC5"])].

(** *** Definitions for the further properties *)

(** The four parameters the handler reads. *)
Definition parameter_keys : list string :=
  ["requisition_id"; "item_name"; "quantity"; "material_code"].

(** The texts of the validation errors. *)
Definition validation_messages : list string :=
  ["Missing required field(s): requisition_id, item_name, quantity";
   "Missing required field(s): requisition_id, item_name";
   "Missing required field(s): requisition_id, quantity";
   "Missing required field(s): requisition_id";
   "Missing required field(s): item_name, quantity";
   "Missing required field(s): item_name";
   "Missing required field(s): quantity";
   "Quantity must be an integer"].

(** An element of the [parameters] sequence on which the comprehension of
    step 1 stops, with the exception it raises there. *)
Inductive malformed : pyval -> exn -> Prop :=
| not_an_object (v : pyval) :
    (forall d, v <> VDict d) -> malformed v TypeError
| no_name (d : pydict) :
    dict_lookup d (VStr "name") = None -> malformed (VDict d) (KeyError "name")
| no_value (d : pydict) (name : pyval) :
    dict_lookup d (VStr "name") = Some name ->
    dict_lookup d (VStr "value") = None ->
    malformed (VDict d) (KeyError "value")
| unhashable_name (d : pydict) (name value : pyval) :
    dict_lookup d (VStr "name") = Some name ->
    dict_lookup d (VStr "value") = Some value ->
    hashable name = false ->
    malformed (VDict d) TypeError.

(** The calls one invocation can make, from none to a whole session. *)
Definition possible_sessions (r : Db.row) : list (list Db.call) :=
  [[];
   [Db.Connect; Db.CloseConnection];
   [Db.Connect; Db.OpenCursor; Db.CloseCursor; Db.CloseConnection];
   [Db.Connect; Db.OpenCursor; Db.Execute r; Db.CloseCursor; Db.CloseConnection];
   [Db.Connect; Db.OpenCursor; Db.Execute r; Db.Commit; Db.CloseCursor;
    Db.CloseConnection]].

(** The ways through one invocation: the rows it adds to the table, the
    calls it makes and what it gives back. *)
Inductive invocation (rt : runtime) (srv : Db.server) (event : pydict)
  : list Db.row -> list Db.call -> result pyval -> Prop :=
| raised (e : exn) :
    validate rt event = Raise e ->
    invocation rt srv event [] [] (Raise e)
| rejected (response : pyval) :
    validate rt event = Return (Rejected response) ->
    invocation rt srv event [] [] (Return response)
| connect_failed (rid name mc : pyval) (n : Z) (err : string) :
    validate rt event = Return (Accepted rid name mc n) ->
    Db.connect_error srv = Some err ->
    invocation rt srv event [] (nth 0 (possible_sessions
                                         (Db.mkrow rid name mc n (Db.utcnow srv))) [])
      (Return (_agent_error event ("Database error: " ++ err) (Some 500)))
| cursor_failed (rid name mc : pyval) (n : Z) (err : string) :
    validate rt event = Return (Accepted rid name mc n) ->
    Db.connect_error srv = None ->
    Db.cursor_error srv = Some err ->
    invocation rt srv event [] (nth 1 (possible_sessions
                                         (Db.mkrow rid name mc n (Db.utcnow srv))) [])
      (Return (_agent_error event ("Database error: " ++ err) (Some 500)))
| execute_failed (rid name mc : pyval) (n : Z) (err : string) :
    validate rt event = Return (Accepted rid name mc n) ->
    Db.connect_error srv = None ->
    Db.cursor_error srv = None ->
    Db.execute_error srv (Db.mkrow rid name mc n (Db.utcnow srv)) = Some err ->
    invocation rt srv event [] (nth 2 (possible_sessions
                                         (Db.mkrow rid name mc n (Db.utcnow srv))) [])
      (Return (_agent_error event ("Database error: " ++ err) (Some 500)))
| commit_failed (rid name mc : pyval) (n : Z) (err : string) :
    validate rt event = Return (Accepted rid name mc n) ->
    Db.connect_error srv = None ->
    Db.cursor_error srv = None ->
    Db.execute_error srv (Db.mkrow rid name mc n (Db.utcnow srv)) = None ->
    Db.commit_error srv = Some err ->
    invocation rt srv event [] (nth 3 (possible_sessions
                                         (Db.mkrow rid name mc n (Db.utcnow srv))) [])
      (Return (_agent_error event ("Database error: " ++ err) (Some 500)))
| inserted (rid name mc : pyval) (n : Z) :
    validate rt event = Return (Accepted rid name mc n) ->
    succeeds srv (Db.mkrow rid name mc n (Db.utcnow srv)) ->
    invocation rt srv event [Db.mkrow rid name mc n (Db.utcnow srv)]
      (full_session (Db.mkrow rid name mc n (Db.utcnow srv)))
      (Return (success_response rt event rid name mc n)).

(** A text made of the white space [int()] skips. *)
Fixpoint all_spaces (s : string) : bool :=
  match s with
  | EmptyString => true
  | String c s' => is_space c && all_spaces s'
  end.

(** A request in the mapping form with the given [quantity] value. *)
Definition bolt_with_quantity (quantity : pyval) : pydict :=
  request (dict_of [("requisition_id", VStr "REQ1"); ("item_name", VStr "Bolt");
                    ("quantity", quantity)]).

(* ================================================================== *)
(** ** The model on concrete inputs *)
(* ================================================================== *)

Example truthy_values :
  map truthy [VNone; VBool false; VInt 0; VStr ""; VList []; VDict [];
              VStr "0"; VStr " "; VList [VInt 0]; VBool true; VInt (-1)]
  = [false; false; false; false; false; false; true; true; true; true; true].
Proof. reflexivity. Qed.

Example int_of_ascii_accepts :
  map int_of_ascii
    ["10"; "0"; "007"; " +7 "; "-3"; "1_000";
     String (ascii_of_nat 9) ("42" ++ String (ascii_of_nat 10) "")]
  = map Return [10; 0; 7; 7; -3; 1000; 42].
Proof. reflexivity. Qed.

Example int_of_ascii_refuses :
  map int_of_ascii [""; " "; "abc"; "12.5"; "1e3"; "+"; "+ 1"; "--1"; "_1"; "1_";
                    "1__0"; "1 2"; "0x10"]
  = map (fun _ => Raise ValueError)
      [""; " "; "abc"; "12.5"; "1e3"; "+"; "+ 1"; "--1"; "_1"; "1_";
       "1__0"; "1 2"; "0x10"].
Proof. reflexivity. Qed.

Example str_of_int_values :
  map str_of_int [0; 7; 10; -42; 1000] = ["0"; "7"; "10"; "-42"; "1000"].
Proof. reflexivity. Qed.

(** [d = {True: 'a'}; d[1] = 'b'] leaves [{True: 'b'}]. *)
Example dict_setitem_equal_keys :
  dict_setitem [(VBool true, VStr "a")] (VInt 1) (VStr "b")
  = [(VBool true, VStr "b")].
Proof. reflexivity. Qed.

Example join_values :
  join ", " [] = "" /\ join ", " ["quantity"] = "quantity" /\
  join ", " ["requisition_id"; "item_name"; "quantity"]
  = "requisition_id, item_name, quantity".
Proof. repeat split. Qed.

Example nbsp_bytes : map code (list_ascii_of_string nbsp) = [194%N; 160%N].
Proof. reflexivity. Qed.

Example handler_on_bolt :
  lambda_handler ascii_runtime good_server (bolt_request "10") empty_world
  = (Db.mkworld
       [Db.mkrow (VStr "REQ1") (VStr "Bolt") (VStr "MC5") 10 1700000000]
       (full_session
          (Db.mkrow (VStr "REQ1") (VStr "Bolt") (VStr "MC5") 10 1700000000)),
     Return (dict_of [
       ("messageVersion", VStr "1.0");
       ("response", dict_of [
         ("actionGroup", VStr "requisitions");
         ("function", VStr "add_line_item");
         ("functionResponse", dict_of [
           ("responseBody", dict_of [
             ("TEXT", dict_of [("body", VStr (body_text "Bolt" "10" "REQ1"))]);
             ("requisition_id", VStr "REQ1");
             ("item_name", VStr "Bolt");
             ("quantity", VStr "10");
             ("material_code", VStr "MC5")])])])])).
Proof. reflexivity. Qed.

Example float_values :
  map truthy [VFloat (FZero false); VFloat (FZero true); VFloat FNaN;
              VFloat (FInf true); VFloat (FFinite false 1 (-1))]
  = [false; false; true; true; true] /\
  map int_of_float [FFinite false 25 (-1); FFinite true 25 (-1);
                    FFinite false 1 (-1); FFinite false 3 2; FZero true]
  = map Return [12; -12; 0; 12; 0] /\
  int_of_float FNaN = Raise ValueError /\
  int_of_float (FInf false) = Raise OverflowError /\
  key_eqb (VFloat (FFinite false 4 (-2))) (VInt 1) = true /\
  key_eqb (VFloat (FFinite false 3 (-1))) (VInt 1) = false /\
  key_eqb (VFloat (FFinite false 3 (-1))) (VFloat (FFinite false 6 (-2))) = true.
Proof. repeat split. Qed.

Example handler_without_parameters :
  lambda_handler ascii_runtime good_server
    [(VStr "actionGroup", VStr "requisitions")] empty_world
  = (empty_world,
     Return (dict_of [
       ("messageVersion", VStr "1.0");
       ("response", dict_of [
         ("actionGroup", VStr "requisitions");
         ("function", VNone);
         ("functionResponse", dict_of [
           ("responseBody", dict_of [
             ("TEXT", dict_of [("body",
                VStr "Missing required field(s): requisition_id, item_name, quantity")])
           ])])]);
       ("statusCode", VInt 400)])).
Proof. reflexivity. Qed.

(* ================================================================== *)
(** ** Lemmas on the Python layer *)
(* ================================================================== *)

Lemma keyclass_eqb_refl (a : keyclass) : keyclass_eqb a a = true.
Proof.
  destruct a; simpl; trivial.
  - apply Z.eqb_refl.
  - now rewrite Bool.eqb_reflx, Pos.eqb_refl, Z.eqb_refl.
  - apply Bool.eqb_reflx.
  - apply String.eqb_refl.
Qed.

Lemma keyclass_eqb_eq (a b : keyclass) : keyclass_eqb a b = true <-> a = b.
Proof.
  split.
  - destruct a, b; simpl; intros H; try discriminate; trivial.
    + apply Z.eqb_eq in H. now subst.
    + apply andb_prop in H. destruct H as [H He].
      apply andb_prop in H. destruct H as [Hs Hm].
      apply Bool.eqb_prop in Hs. apply Pos.eqb_eq in Hm. apply Z.eqb_eq in He.
      now subst.
    + apply Bool.eqb_prop in H. now subst.
    + apply String.eqb_eq in H. now subst.
  - intros ->. apply keyclass_eqb_refl.
Qed.

(** Two keys are equal when they are hashable and of one class. *)
Lemma key_eqb_true (a b : pyval) :
  key_eqb a b = true <-> exists c, key_class a = Some c /\ key_class b = Some c.
Proof.
  unfold key_eqb. split.
  - destruct (key_class a) as [x|], (key_class b) as [y|]; try discriminate.
    intros H. apply keyclass_eqb_eq in H. subst. now exists y.
  - intros [c [-> ->]]. apply keyclass_eqb_refl.
Qed.

Lemma key_eqb_trans_l (a b k : pyval) :
  key_eqb a b = true -> key_eqb a k = key_eqb b k.
Proof.
  intros H. apply key_eqb_true in H. destruct H as [c [Ha Hb]].
  unfold key_eqb. now rewrite Ha, Hb.
Qed.

(** Reading a dict after an assignment. *)
Lemma dict_lookup_setitem (d : pydict) (n v k : pyval) :
  hashable n = true ->
  dict_lookup (dict_setitem d n v) k =
  if key_eqb n k then Some v else dict_lookup d k.
Proof.
  intros Hn. induction d as [|[k' v'] d IH]; simpl.
  - reflexivity.
  - destruct (key_eqb k' n) eqn:E; simpl.
    + rewrite (key_eqb_trans_l _ _ k E). now destruct (key_eqb n k).
    + rewrite IH. destruct (key_eqb k' k) eqn:E'; trivial.
      destruct (key_eqb n k) eqn:E''; trivial.
      apply key_eqb_true in E', E''.
      destruct E' as [c [H1 H2]], E'' as [c' [H3 H4]].
      assert (key_eqb k' n = true) by (apply key_eqb_true; exists c; split; congruence).
      congruence.
Qed.

Lemma missing_fields_dict (p : pydict) (keys : list string) :
  missing_fields (VDict p) keys = Return (absent_or_falsy p keys).
Proof.
  induction keys as [|k keys IH]; simpl.
  - reflexivity.
  - rewrite IH. simpl. now destruct (truthy (dict_get p k VNone)).
Qed.

(** Steps 2 and 3 once step 1 has given a dict. *)
Lemma validate_dict (rt : runtime) (event p : pydict) :
  normalize_parameters event = Return (VDict p) ->
  validate rt event =
  match absent_or_falsy p required_fields with
  | _ :: _ =>
      Return (Rejected (_agent_error event
                ("Missing required field(s): "
                   ++ join ", " (absent_or_falsy p required_fields)) (Some 400)))
  | [] =>
      match int rt (dict_get p "quantity" (VStr "")) with
      | Return quantity_int =>
          Return (Accepted (dict_get p "requisition_id" (VStr ""))
                    (dict_get p "item_name" (VStr ""))
                    (dict_get p "material_code" (VStr "")) quantity_int)
      | Raise ValueError =>
          Return (Rejected (_agent_error event "Quantity must be an integer"
                              (Some 400)))
      | Raise e => Raise e
      end
  end.
Proof.
  intros Hn. unfold validate. rewrite Hn. cbn [bind get].
  rewrite missing_fields_dict. cbn [bind]. reflexivity.
Qed.

(** A present value is what both [get(k)] and [get(k, '')] give. *)
Lemma dict_get_present (p : pydict) (k : string) (v default : pyval) :
  dict_lookup p (VStr k) = Some v -> dict_get p k default = v.
Proof. unfold dict_get. now intros ->. Qed.

Lemma absent_or_falsy_nil (p : pydict) (rid name qty : pyval) :
  dict_lookup p (VStr "requisition_id") = Some rid -> truthy rid = true ->
  dict_lookup p (VStr "item_name") = Some name -> truthy name = true ->
  dict_lookup p (VStr "quantity") = Some qty -> truthy qty = true ->
  absent_or_falsy p required_fields = [].
Proof.
  intros H1 T1 H2 T2 H3 T3. unfold absent_or_falsy, required_fields. simpl.
  rewrite (dict_get_present _ _ _ _ H1), (dict_get_present _ _ _ _ H2),
    (dict_get_present _ _ _ _ H3), T1, T2, T3. reflexivity.
Qed.

Lemma int_of_str_truthy (rt : runtime) (q : string) (n : Z) :
  int_of_str rt q = Return n -> truthy (VStr q) = true.
Proof. destruct q; [discriminate | reflexivity]. Qed.

Lemma nonempty_truthy (s : string) : s <> "" -> truthy (VStr s) = true.
Proof. destruct s; [congruence | reflexivity]. Qed.

(* ================================================================== *)
(** ** Lemmas on the database session *)
(* ================================================================== *)

(** Case analysis on the first call of step 4 that raises, if any. *)
Ltac server_cases srv r :=
  destruct (Db.connect_error srv) as [?raised|] eqn:?Hconnect;
  [|destruct (Db.cursor_error srv) as [?raised|] eqn:?Hcursor;
    [|destruct (Db.execute_error srv r) as [?raised|] eqn:?Hexecute;
      [|destruct (Db.commit_error srv) as [?raised|] eqn:?Hcommit]]].

(** Step 4, call by call: the first call that raises ends the [try]
    block, and the [finally] block closes what was opened. *)
Lemma insert_line_item_cases (srv : Db.server) (rid name mc : pyval) (n : Z)
  (w : Db.world) :
  let r := Db.mkrow rid name mc n (Db.utcnow srv) in
  Db.insert_line_item srv rid name mc n w =
  match Db.connect_error srv with
  | Some err => (Db.mkworld (Db.table w) (Db.calls w ++ []), Some err)
  | None =>
    match Db.cursor_error srv with
    | Some err =>
        (Db.mkworld (Db.table w)
           (Db.calls w ++ [Db.Connect; Db.CloseConnection]), Some err)
    | None =>
      match Db.execute_error srv r with
      | Some err =>
          (Db.mkworld (Db.table w)
             (Db.calls w ++ [Db.Connect; Db.OpenCursor; Db.CloseCursor;
                             Db.CloseConnection]), Some err)
      | None =>
        match Db.commit_error srv with
        | Some err =>
            (Db.mkworld (Db.table w)
               (Db.calls w ++ [Db.Connect; Db.OpenCursor; Db.Execute r;
                               Db.CloseCursor; Db.CloseConnection]), Some err)
        | None =>
            (Db.mkworld (Db.table w ++ [r]) (Db.calls w ++ full_session r), None)
        end
      end
    end
  end.
Proof.
  intros r. destruct w as [t c].
  unfold Db.insert_line_item, Db.try_block, Db.seq, Db.connect_db,
    Db.conn_cursor, Db.cur_execute, Db.conn_commit, Db.set_conn, Db.set_cur.
  destruct (Db.connect_error srv); cbn.
  { now rewrite app_nil_r. }
  destruct (Db.cursor_error srv); cbn.
  { unfold Db.record_call; cbn. now rewrite <- app_assoc. }
  fold r. destruct (Db.execute_error srv r); cbn.
  { unfold Db.record_call; cbn. now rewrite <- !app_assoc. }
  destruct (Db.commit_error srv); cbn.
  { unfold Db.record_call; cbn. now rewrite <- !app_assoc. }
  unfold Db.record_call, full_session; cbn. now rewrite <- !app_assoc.
Qed.

Lemma insert_line_item_ok (srv : Db.server) (rid name mc : pyval) (n : Z)
  (w : Db.world) :
  succeeds srv (Db.mkrow rid name mc n (Db.utcnow srv)) ->
  Db.insert_line_item srv rid name mc n w =
  (Db.mkworld (Db.table w ++ [Db.mkrow rid name mc n (Db.utcnow srv)])
     (Db.calls w ++ full_session (Db.mkrow rid name mc n (Db.utcnow srv))), None).
Proof.
  intros (H1 & H2 & H3 & H4). rewrite insert_line_item_cases.
  cbv zeta. now rewrite H1, H2, H3, H4.
Qed.

(** The handler on a request that steps 1 to 3 accept, when every call
    goes through. *)
Lemma lambda_handler_accepted_ok (rt : runtime) (srv : Db.server)
  (event : pydict) (w : Db.world) (rid name mc : pyval) (n : Z) :
  validate rt event = Return (Accepted rid name mc n) ->
  succeeds srv (Db.mkrow rid name mc n (Db.utcnow srv)) ->
  lambda_handler rt srv event w =
  (Db.mkworld (Db.table w ++ [Db.mkrow rid name mc n (Db.utcnow srv)])
     (Db.calls w ++ full_session (Db.mkrow rid name mc n (Db.utcnow srv))),
   Return (success_response rt event rid name mc n)).
Proof.
  intros Hv Hs. unfold lambda_handler. rewrite Hv.
  now rewrite (insert_line_item_ok _ _ _ _ _ _ Hs).
Qed.

(** Steps 1 to 3 on a request with the three required values truthy. *)
Lemma validate_present (rt : runtime) (event p : pydict) (rid name qty : pyval) :
  normalize_parameters event = Return (VDict p) ->
  dict_lookup p (VStr "requisition_id") = Some rid -> truthy rid = true ->
  dict_lookup p (VStr "item_name") = Some name -> truthy name = true ->
  dict_lookup p (VStr "quantity") = Some qty -> truthy qty = true ->
  validate rt event =
  match int rt qty with
  | Return quantity_int =>
      Return (Accepted rid name (dict_get p "material_code" (VStr ""))
                quantity_int)
  | Raise ValueError =>
      Return (Rejected (_agent_error event "Quantity must be an integer"
                          (Some 400)))
  | Raise e => Raise e
  end.
Proof.
  intros Hn H1 T1 H2 T2 H3 T3. rewrite (validate_dict rt event p Hn).
  rewrite (absent_or_falsy_nil p rid name qty H1 T1 H2 T2 H3 T3).
  now rewrite (dict_get_present _ _ _ _ H1), (dict_get_present _ _ _ _ H2),
    (dict_get_present _ _ _ _ H3).
Qed.

(* ================================================================== *)
(** ** The decimal form of the quantity *)
(* ================================================================== *)

Lemma of_uint_acc_value (d : Decimal.uint) (acc : positive) :
  Z.pos (Pos.of_uint_acc d acc) = digits_value d (Z.pos acc).
Proof.
  revert acc. induction d; intros acc; cbn [Pos.of_uint_acc digits_value];
    try reflexivity; rewrite IHd; f_equal; lia.
Qed.

Lemma of_uint_value (d : Decimal.uint) :
  Z.of_N (Pos.of_uint d) = digits_value d 0.
Proof.
  induction d; cbn [Pos.of_uint digits_value]; try reflexivity;
    try (exact IHd); cbn [Z.of_N]; now rewrite of_uint_acc_value.
Qed.

(** The parser reads back a printed run of digits. *)
Lemma scan_digits_printed (d : Decimal.uint) (acc : Z) (k : nat) :
  scan_digits (NilEmpty.string_of_uint d) false acc k
  = Some (digits_value d acc, (k + Decimal.nb_digits d)%nat, "").
Proof.
  revert acc k. induction d; intros acc k;
    cbn [NilEmpty.string_of_uint digits_value Decimal.nb_digits];
    try (now rewrite Nat.add_0_r);
    unfold scan_digits; fold scan_digits;
    match goal with
    | |- context [is_underscore ?c] => change (is_underscore c) with false
    end;
    match goal with
    | |- context [digit_value ?c] =>
        let v := eval vm_compute in (digit_value c) in
        change (digit_value c) with v
    end;
    cbv iota; rewrite IHd; now rewrite Nat.add_succ_r.
Qed.

Lemma is_ascii_text_printed (d : Decimal.uint) :
  is_ascii_text (NilEmpty.string_of_uint d) = true.
Proof. induction d; cbn; trivial. Qed.

Lemma int_of_ascii_printed (d : Decimal.uint) :
  d <> Decimal.Nil ->
  int_of_ascii (NilEmpty.string_of_uint d) = Return (digits_value d 0) /\
  int_of_ascii (String "-" (NilEmpty.string_of_uint d))
  = Return (- digits_value d 0).
Proof.
  intros Hd. destruct d; [congruence|..];
    unfold int_of_ascii; cbn [NilEmpty.string_of_uint skip_spaces];
    (split;
     [ cbn -[scan_digits]; unfold scan_digits; fold scan_digits; cbn -[scan_digits];
       rewrite scan_digits_printed; cbn [skip_spaces];
       f_equal; destruct (digits_value _ _); reflexivity
     | cbn -[scan_digits]; unfold scan_digits; fold scan_digits; cbn -[scan_digits];
       rewrite scan_digits_printed; cbn [skip_spaces];
       f_equal; destruct (digits_value _ _); reflexivity ]).
Qed.

(** Parsing the decimal form of [n] gives [n] back. *)
Lemma int_of_str_str_of_int (rt : runtime) (n : Z) :
  int_of_str rt (str_of_int n) = Return n.
Proof.
  unfold int_of_str, str_of_int. destruct n as [|p|p].
  - reflexivity.
  - cbn [Z.to_int NilZero.string_of_int NilZero.string_of_uint].
    pose proof (DecimalPos.Unsigned.to_uint_nonnil p) as Hp.
    pose proof (DecimalPos.Unsigned.of_to p) as Hv.
    destruct (Pos.to_uint p) eqn:E; [congruence|..];
      rewrite <- E in *; (replace (NilZero.string_of_uint (Pos.to_uint p))
        with (NilEmpty.string_of_uint (Pos.to_uint p)) by (now rewrite E));
      rewrite is_ascii_text_printed;
      rewrite (proj1 (int_of_ascii_printed _ Hp));
      rewrite <- of_uint_value, Hv; reflexivity.
  - cbn [Z.to_int NilZero.string_of_int NilZero.string_of_uint].
    pose proof (DecimalPos.Unsigned.to_uint_nonnil p) as Hp.
    pose proof (DecimalPos.Unsigned.of_to p) as Hv.
    destruct (Pos.to_uint p) eqn:E; [congruence|..];
      rewrite <- E in *; (replace (NilZero.string_of_uint (Pos.to_uint p))
        with (NilEmpty.string_of_uint (Pos.to_uint p)) by (now rewrite E));
      cbn [is_ascii_text]; rewrite is_ascii_text_printed;
      cbn -[int_of_ascii];
      rewrite (proj2 (int_of_ascii_printed _ Hp));
      rewrite <- of_uint_value, Hv; reflexivity.
Qed.

(* ================================================================== *)
(** ** Success path *)
(* ================================================================== *)

(** C1, as the specification words it, fails on its own example: for
    [requisition_id="REQ1"], [item_name="Bolt"], [quantity="10"],
    [material_code="MC5"] and a server that answers, the TEXT body is not
    the specification's text with a plain space after [Qty]; the source
    has the no-break space U+00A0 there. *)
Lemma success_text_has_no_plain_space :
  response_path
    (snd (lambda_handler ascii_runtime good_server (bolt_request "10") empty_world))
    text_body_path
  <> Some (VStr "✓ Added 'Bolt' (Qty 10) to requisition REQ1.").
Proof. vm_compute. intros H. discriminate H. Qed.

Section AcceptedRequest.

(** A request whose normalized parameters [p] hold a non-empty
    [requisition_id] and [item_name] and a [quantity] text [q] that
    [int()] reads as [n], answered by a server on which every call goes
    through. *)
Variables (rt : runtime) (srv : Db.server) (event : pydict) (w : Db.world).
Variables (p : pydict) (rid name q : string) (n : Z).

Hypothesis normalized : normalize_parameters event = Return (VDict p).
Hypothesis has_requisition_id :
  dict_lookup p (VStr "requisition_id") = Some (VStr rid).
Hypothesis requisition_id_nonempty : rid <> "".
Hypothesis has_item_name : dict_lookup p (VStr "item_name") = Some (VStr name).
Hypothesis item_name_nonempty : name <> "".
Hypothesis has_quantity : dict_lookup p (VStr "quantity") = Some (VStr q).
Hypothesis quantity_parses : int_of_str rt q = Return n.

Let mc : pyval := dict_get p "material_code" (VStr "").
Let r : Db.row := Db.mkrow (VStr rid) (VStr name) mc n (Db.utcnow srv).

Hypothesis insert_succeeds : succeeds srv r.

Lemma validate_accepts :
  validate rt event = Return (Accepted (VStr rid) (VStr name) mc n).
Proof using normalized has_requisition_id requisition_id_nonempty has_item_name
  item_name_nonempty has_quantity quantity_parses.
  rewrite (validate_present rt event p (VStr rid) (VStr name) (VStr q) normalized
             has_requisition_id (nonempty_truthy _ requisition_id_nonempty)
             has_item_name (nonempty_truthy _ item_name_nonempty)
             has_quantity (int_of_str_truthy rt q n quantity_parses)).
  cbn [int]. now rewrite quantity_parses.
Qed.

Lemma lambda_handler_succeeds :
  lambda_handler rt srv event w =
  (Db.mkworld (Db.table w ++ [r]) (Db.calls w ++ full_session r),
   Return (success_response rt event (VStr rid) (VStr name) mc n)).
Proof using All.
  exact (lambda_handler_accepted_ok rt srv event w _ _ _ _ validate_accepts
           insert_succeeds).
Qed.

(** C1 (amended): a request whose normalized parameters hold a non-empty
    [requisition_id] and [item_name] and a [quantity] text that parses to
    [n], answered by a server on which every call goes through, inserts
    exactly the row of these values with the clock's time, and gets the
    success envelope: its TEXT body is the check mark text with U+00A0
    between [Qty] and the decimal form of [n], and the response body
    echoes the three values and that decimal form.  Without a
    [material_code] both the row and the echo carry the empty string. *)
Theorem success_inserts_and_echoes :
  let out := lambda_handler rt srv event w in
  Db.table (fst out) = (Db.table w ++ [r])%list /\
  Db.calls (fst out) = (Db.calls w ++ full_session r)%list /\
  snd out = Return (success_response rt event (VStr rid) (VStr name) mc n) /\
  response_path (snd out) text_body_path
    = Some (VStr (body_text name (str_of_int n) rid)) /\
  response_path (snd out) response_body_path
    = Some (dict_of [("TEXT", dict_of [("body",
                        VStr (body_text name (str_of_int n) rid))]);
                     ("requisition_id", VStr rid);
                     ("item_name", VStr name);
                     ("quantity", VStr (str_of_int n));
                     ("material_code", mc)]) /\
  response_path (snd out) ["statusCode"] = None /\
  (dict_lookup p (VStr "material_code") = None -> mc = VStr "").
Proof using All.
  intros out. subst out. rewrite lambda_handler_succeeds.
  cbn [fst snd Db.table Db.calls]. do 6 (split; [reflexivity|]).
  intros Hm. subst mc. unfold dict_get. now rewrite Hm.
Qed.

(** C10: the quantity echoed in the response body and shown in the
    success text is the decimal form of the integer that [int()] read,
    not the text the caller sent; that form parses back to the same
    integer.  "007" and " +7 " are read as 7 and echoed as "7". *)
Theorem quantity_echoed_in_decimal_form :
  let out := lambda_handler rt srv event w in
  response_path (snd out) (response_body_path ++ ["quantity"])%list
    = Some (VStr (str_of_int n)) /\
  response_path (snd out) text_body_path
    = Some (VStr ("✓ Added '" ++ name ++ "' (Qty" ++ nbsp ++ str_of_int n
                  ++ ") to requisition " ++ rid ++ ".")) /\
  int_of_str rt (str_of_int n) = Return n /\
  (q <> str_of_int n ->
   response_path (snd out) (response_body_path ++ ["quantity"])%list
     <> Some (VStr q)) /\
  int_of_str rt "007" = Return 7 /\
  int_of_str rt " +7 " = Return 7 /\
  str_of_int 7 = "7".
Proof using All.
  intros out. subst out. rewrite lambda_handler_succeeds. cbn [snd response_path].
  split; [reflexivity|]. split; [reflexivity|].
  split; [apply int_of_str_str_of_int|].
  split; [|repeat split].
  intros Hne Heq. apply Hne. cbn in Heq. congruence.
Qed.

End AcceptedRequest.

Lemma success_inserts_and_echoes_witness :
  Db.table (fst (lambda_handler ascii_runtime good_server bolt_mapping empty_world))
  = [Db.mkrow (VStr "REQ1") (VStr "Bolt") (VStr "") 10 1700000000] /\
  response_path
    (snd (lambda_handler ascii_runtime good_server bolt_mapping empty_world))
    text_body_path
  = Some (VStr (body_text "Bolt" "10" "REQ1")).
Proof.
  pose proof (success_inserts_and_echoes ascii_runtime good_server bolt_mapping
                empty_world
                [(VStr "requisition_id", VStr "REQ1"); (VStr "item_name", VStr "Bolt");
                 (VStr "quantity", VStr "10")]
                "REQ1" "Bolt" "10" 10
                eq_refl eq_refl ltac:(discriminate) eq_refl ltac:(discriminate)
                eq_refl eq_refl
                (conj eq_refl (conj eq_refl (conj eq_refl eq_refl)))) as H.
  cbv zeta in H. destruct H as (Ht & _ & _ & Hb & _).
  split; [exact Ht | exact Hb].
Defined.

Lemma quantity_echoed_in_decimal_form_witness :
  response_path
    (snd (lambda_handler ascii_runtime good_server (bolt_request "007")
            empty_world))
    (response_body_path ++ ["quantity"])%list = Some (VStr "7") /\
  response_path
    (snd (lambda_handler ascii_runtime good_server (bolt_request " +7 ")
            empty_world))
    (response_body_path ++ ["quantity"])%list = Some (VStr "7").
Proof.
  split.
  - refine (proj1 (quantity_echoed_in_decimal_form ascii_runtime good_server
                     (bolt_request "007") empty_world
                     [(VStr "requisition_id", VStr "REQ1");
                      (VStr "item_name", VStr "Bolt");
                      (VStr "quantity", VStr "007");
                      (VStr "material_code", VStr "MC5")]
                     "REQ1" "Bolt" "007" 7
                     eq_refl eq_refl _ eq_refl _ eq_refl eq_refl
                     (conj eq_refl (conj eq_refl (conj eq_refl eq_refl)))));
      discriminate.
  - refine (proj1 (quantity_echoed_in_decimal_form ascii_runtime good_server
                     (bolt_request " +7 ") empty_world
                     [(VStr "requisition_id", VStr "REQ1");
                      (VStr "item_name", VStr "Bolt");
                      (VStr "quantity", VStr " +7 ");
                      (VStr "material_code", VStr "MC5")]
                     "REQ1" "Bolt" " +7 " 7
                     eq_refl eq_refl _ eq_refl _ eq_refl eq_refl
                     (conj eq_refl (conj eq_refl (conj eq_refl eq_refl)))));
      discriminate.
Defined.

(* ================================================================== *)
(** ** Validation *)
(* ================================================================== *)

(** C2: when one of [requisition_id], [item_name], [quantity] is absent
    from the normalized parameters or falsy there, the handler returns
    the error envelope of status 400 whose message lists the absent or
    falsy ones, joined by a comma and a space, in that fixed order; the
    world is untouched, so no row is inserted. *)
Theorem missing_fields_rejected
  (rt : runtime) (srv : Db.server) (event : pydict) (w : Db.world)
  (p : pydict) (k : string) :
  normalize_parameters event = Return (VDict p) ->
  In k required_fields -> truthy (dict_get p k VNone) = false ->
  let missing := absent_or_falsy p required_fields in
  lambda_handler rt srv event w =
    (w, Return (_agent_error event
                  ("Missing required field(s): " ++ join ", " missing) (Some 400))) /\
  response_path (snd (lambda_handler rt srv event w)) ["statusCode"]
    = Some (VInt 400) /\
  response_path (snd (lambda_handler rt srv event w)) text_body_path
    = Some (VStr ("Missing required field(s): " ++ join ", " missing)) /\
  (forall k', In k' missing <->
              In k' required_fields /\ truthy (dict_get p k' VNone) = false) /\
  missing =
    ((if truthy (dict_get p "requisition_id" VNone) then [] else ["requisition_id"])
     ++ (if truthy (dict_get p "item_name" VNone) then [] else ["item_name"])
     ++ (if truthy (dict_get p "quantity" VNone) then [] else ["quantity"]))%list.
Proof.
  intros Hn Hk Hf missing.
  assert (Hin : In k missing).
  { apply filter_In. split; [exact Hk | now rewrite Hf]. }
  assert (Hh : lambda_handler rt srv event w =
    (w, Return (_agent_error event
                  ("Missing required field(s): " ++ join ", " missing) (Some 400)))).
  { unfold lambda_handler. rewrite (validate_dict rt event p Hn).
    fold missing. destruct missing; [contradiction | reflexivity]. }
  rewrite Hh. do 3 (split; [reflexivity|]). split.
  - intros k'. unfold missing, absent_or_falsy. rewrite filter_In.
    now destruct (truthy (dict_get p k' VNone)).
  - subst missing. unfold absent_or_falsy, required_fields. cbn [filter].
    destruct (truthy (dict_get p "requisition_id" VNone)),
      (truthy (dict_get p "item_name" VNone)),
      (truthy (dict_get p "quantity" VNone)); reflexivity.
Qed.

Lemma missing_fields_rejected_witness :
  lambda_handler ascii_runtime good_server
    (request (VList [param "item_name" "Bolt"; param "quantity" ""])) empty_world
  = (empty_world,
     Return (_agent_error
               (request (VList [param "item_name" "Bolt"; param "quantity" ""]))
               "Missing required field(s): requisition_id, quantity" (Some 400))).
Proof.
  exact (proj1 (missing_fields_rejected ascii_runtime good_server
                  (request (VList [param "item_name" "Bolt"; param "quantity" ""]))
                  empty_world
                  [(VStr "item_name", VStr "Bolt"); (VStr "quantity", VStr "")]
                  "quantity" eq_refl (or_intror (or_intror (or_introl eq_refl)))
                  eq_refl)).
Defined.

(** C3: with the required values present and truthy and a [quantity]
    text that [int()] refuses, the handler returns the error envelope of
    status 400 with the message "Quantity must be an integer" and leaves
    the world untouched.  Nothing checks the sign or the range of a text
    that parses: whatever integer it denotes, negative ones included, is
    inserted once the server answers.  The texts "abc" and "12.5" are
    refused and "-5" parses to -5. *)
Theorem non_integer_quantity_rejected
  (rt : runtime) (srv : Db.server) (event : pydict) (w : Db.world)
  (p : pydict) (rid name : pyval) (q : string) :
  normalize_parameters event = Return (VDict p) ->
  dict_lookup p (VStr "requisition_id") = Some rid -> truthy rid = true ->
  dict_lookup p (VStr "item_name") = Some name -> truthy name = true ->
  dict_lookup p (VStr "quantity") = Some (VStr q) -> q <> "" ->
  (int_of_str rt q = Raise ValueError ->
   lambda_handler rt srv event w =
     (w, Return (_agent_error event "Quantity must be an integer" (Some 400))) /\
   response_path (snd (lambda_handler rt srv event w)) ["statusCode"]
     = Some (VInt 400) /\
   response_path (snd (lambda_handler rt srv event w)) text_body_path
     = Some (VStr "Quantity must be an integer")) /\
  (forall n : Z,
     int_of_str rt q = Return n ->
     succeeds srv (Db.mkrow rid name (dict_get p "material_code" (VStr "")) n
                     (Db.utcnow srv)) ->
     Db.table (fst (lambda_handler rt srv event w)) =
       (Db.table w ++ [Db.mkrow rid name (dict_get p "material_code" (VStr "")) n
                         (Db.utcnow srv)])%list /\
     response_path (snd (lambda_handler rt srv event w)) ["statusCode"] = None) /\
  int_of_str rt "abc" = Raise ValueError /\
  int_of_str rt "12.5" = Raise ValueError /\
  int_of_str rt "-5" = Return (-5).
Proof.
  intros Hn H1 T1 H2 T2 H3 Tq.
  pose proof (validate_present rt event p rid name (VStr q) Hn H1 T1 H2 T2 H3
                (nonempty_truthy q Tq)) as Hv.
  cbn [int] in Hv. split; [|split].
  - intros Hq. rewrite Hq in Hv. unfold lambda_handler. rewrite Hv.
    repeat split.
  - intros n Hq Hs. rewrite Hq in Hv.
    rewrite (lambda_handler_accepted_ok rt srv event w _ _ _ _ Hv Hs).
    split; reflexivity.
  - repeat split.
Qed.

Lemma non_integer_quantity_rejected_witness :
  lambda_handler ascii_runtime good_server (bolt_request "12.5") empty_world
  = (empty_world,
     Return (_agent_error (bolt_request "12.5") "Quantity must be an integer"
               (Some 400))) /\
  Db.table (fst (lambda_handler ascii_runtime good_server (bolt_request "-5")
                   empty_world))
  = [Db.mkrow (VStr "REQ1") (VStr "Bolt") (VStr "MC5") (-5) 1700000000].
Proof.
  split.
  - refine (proj1 (proj1 (non_integer_quantity_rejected ascii_runtime good_server
                     (bolt_request "12.5") empty_world
                     [(VStr "requisition_id", VStr "REQ1");
                      (VStr "item_name", VStr "Bolt");
                      (VStr "quantity", VStr "12.5");
                      (VStr "material_code", VStr "MC5")]
                     (VStr "REQ1") (VStr "Bolt") "12.5"
                     eq_refl eq_refl eq_refl eq_refl eq_refl eq_refl _) eq_refl)).
    discriminate.
  - refine (proj1 (proj1 (proj2 (non_integer_quantity_rejected ascii_runtime
                     good_server (bolt_request "-5") empty_world
                     [(VStr "requisition_id", VStr "REQ1");
                      (VStr "item_name", VStr "Bolt");
                      (VStr "quantity", VStr "-5");
                      (VStr "material_code", VStr "MC5")]
                     (VStr "REQ1") (VStr "Bolt") "-5"
                     eq_refl eq_refl eq_refl eq_refl eq_refl eq_refl _))
                   (-5) eq_refl
                   (conj eq_refl (conj eq_refl (conj eq_refl eq_refl))))).
    discriminate.
Defined.

(** C5, as the specification words it, fails: the request with
    [quantity="0"] is not rejected.  The text "0" is a non-empty string,
    hence truthy; the handler inserts a row of quantity 0 and returns the
    success envelope, which has no status code. *)
Lemma quantity_text_zero_is_accepted :
  Db.table (fst (lambda_handler ascii_runtime good_server (bolt_request "0")
                   empty_world))
  = [Db.mkrow (VStr "REQ1") (VStr "Bolt") (VStr "MC5") 0 1700000000] /\
  response_path
    (snd (lambda_handler ascii_runtime good_server (bolt_request "0") empty_world))
    ["statusCode"] = None /\
  snd (lambda_handler ascii_runtime good_server (bolt_request "0") empty_world)
  <> Return (_agent_error (bolt_request "0")
               "Missing required field(s): quantity" (Some 400)) /\
  response_path
    (snd (lambda_handler ascii_runtime good_server (bolt_request "0") empty_world))
    text_body_path = Some (VStr (body_text "Bolt" "0" "REQ1")).
Proof.
  split; [reflexivity|]. split; [reflexivity|]. split; [|reflexivity].
  vm_compute. intros H. discriminate H.
Qed.

(** C5 (amended): with [requisition_id] and [item_name] truthy, a
    [quantity] given as the text "0" passes validation as the integer 0:
    the row of quantity 0 is inserted and the success envelope returned
    when the server answers.  It is the integer 0, a falsy value, that is
    reported as missing. *)
Theorem quantity_zero_text_and_number
  (rt : runtime) (srv : Db.server) (event : pydict) (w : Db.world)
  (p : pydict) (rid name qty : pyval) :
  normalize_parameters event = Return (VDict p) ->
  dict_lookup p (VStr "requisition_id") = Some rid -> truthy rid = true ->
  dict_lookup p (VStr "item_name") = Some name -> truthy name = true ->
  dict_lookup p (VStr "quantity") = Some qty ->
  let mc := dict_get p "material_code" (VStr "") in
  (qty = VStr "0" ->
   validate rt event = Return (Accepted rid name mc 0) /\
   (succeeds srv (Db.mkrow rid name mc 0 (Db.utcnow srv)) ->
    Db.table (fst (lambda_handler rt srv event w)) =
      (Db.table w ++ [Db.mkrow rid name mc 0 (Db.utcnow srv)])%list /\
    snd (lambda_handler rt srv event w) =
      Return (success_response rt event rid name mc 0))) /\
  (qty = VInt 0 ->
   lambda_handler rt srv event w =
     (w, Return (_agent_error event "Missing required field(s): quantity"
                   (Some 400)))).
Proof.
  intros Hn H1 T1 H2 T2 H3 mc. split; intros ->.
  - assert (Hv : validate rt event = Return (Accepted rid name mc 0)).
    { now rewrite (validate_present rt event p rid name (VStr "0") Hn H1 T1 H2 T2
                     H3 eq_refl). }
    split; [exact Hv|]. intros Hs.
    rewrite (lambda_handler_accepted_ok rt srv event w _ _ _ _ Hv Hs).
    split; reflexivity.
  - unfold lambda_handler. rewrite (validate_dict rt event p Hn).
    unfold absent_or_falsy, required_fields. cbn [filter].
    rewrite (dict_get_present _ _ _ VNone H1), (dict_get_present _ _ _ VNone H2),
      (dict_get_present _ _ _ VNone H3), T1, T2.
    reflexivity.
Qed.

Lemma quantity_zero_text_and_number_witness :
  validate ascii_runtime (bolt_request "0")
  = Return (Accepted (VStr "REQ1") (VStr "Bolt") (VStr "MC5") 0) /\
  lambda_handler ascii_runtime good_server
    (request (dict_of [("requisition_id", VStr "REQ1"); ("item_name", VStr "Bolt");
                       ("quantity", VInt 0)])) empty_world
  = (empty_world,
     Return (_agent_error
               (request (dict_of [("requisition_id", VStr "REQ1");
                                  ("item_name", VStr "Bolt"); ("quantity", VInt 0)]))
               "Missing required field(s): quantity" (Some 400))).
Proof.
  split.
  - exact (proj1 (proj1 (quantity_zero_text_and_number ascii_runtime good_server
                    (bolt_request "0") empty_world
                    [(VStr "requisition_id", VStr "REQ1");
                     (VStr "item_name", VStr "Bolt");
                     (VStr "quantity", VStr "0");
                     (VStr "material_code", VStr "MC5")]
                    (VStr "REQ1") (VStr "Bolt") (VStr "0")
                    eq_refl eq_refl eq_refl eq_refl eq_refl eq_refl) eq_refl)).
  - exact (proj2 (quantity_zero_text_and_number ascii_runtime good_server
                    (request (dict_of [("requisition_id", VStr "REQ1");
                                       ("item_name", VStr "Bolt");
                                       ("quantity", VInt 0)])) empty_world
                    [(VStr "requisition_id", VStr "REQ1");
                     (VStr "item_name", VStr "Bolt");
                     (VStr "quantity", VInt 0)]
                    (VStr "REQ1") (VStr "Bolt") (VInt 0)
                    eq_refl eq_refl eq_refl eq_refl eq_refl eq_refl) eq_refl).
Defined.

(* ================================================================== *)
(** ** Persistence failures *)
(* ================================================================== *)

(** C4: on a request that passed validation, the first of connect,
    cursor, execute and commit that raises makes the handler return the
    error envelope of status 500 with the message "Database error: "
    followed by the exception's text, and the table is as before.  On
    every way out of step 4, with or without an exception, the calls made
    close the connection exactly as often as it was opened and the
    cursor exactly as often as it was opened, each at most once, and
    once whenever the opening call went through. *)
Theorem database_failure_reported
  (rt : runtime) (srv : Db.server) (event : pydict) (w : Db.world)
  (rid name mc : pyval) (n : Z) :
  validate rt event = Return (Accepted rid name mc n) ->
  let r := Db.mkrow rid name mc n (Db.utcnow srv) in
  let out := lambda_handler rt srv event w in
  (forall err : string,
     Db.connect_error srv = Some err \/
     (Db.connect_error srv = None /\ Db.cursor_error srv = Some err) \/
     (Db.connect_error srv = None /\ Db.cursor_error srv = None /\
      Db.execute_error srv r = Some err) \/
     (Db.connect_error srv = None /\ Db.cursor_error srv = None /\
      Db.execute_error srv r = None /\ Db.commit_error srv = Some err) ->
     snd out = Return (_agent_error event ("Database error: " ++ err) (Some 500)) /\
     response_path (snd out) ["statusCode"] = Some (VInt 500) /\
     response_path (snd out) text_body_path
       = Some (VStr ("Database error: " ++ err)) /\
     Db.table (fst out) = Db.table w) /\
  (exists session : list Db.call,
     Db.calls (fst out) = (Db.calls w ++ session)%list /\
     Db.count_calls Db.is_close_connection session
       = Db.count_calls Db.is_connect session /\
     Db.count_calls Db.is_close_cursor session
       = Db.count_calls Db.is_open_cursor session /\
     (Db.count_calls Db.is_connect session <= 1)%nat /\
     (Db.count_calls Db.is_open_cursor session <= 1)%nat /\
     (Db.connect_error srv = None ->
      Db.count_calls Db.is_close_connection session = 1%nat) /\
     (Db.connect_error srv = None -> Db.cursor_error srv = None ->
      Db.count_calls Db.is_close_cursor session = 1%nat)).
Proof.
  intros Hv r out. subst out. unfold lambda_handler. rewrite Hv.
  rewrite insert_line_item_cases. cbv zeta. fold r.
  server_cases srv r;
    cbn [fst snd Db.table Db.calls]; (split;
      [ intros err Herr;
        destruct Herr as [H|[[H H']|[(H & H' & H'')|(H & H' & H'' & H''')]]];
        try discriminate;
        repeat match goal with
               | Heq : Some _ = Some _ |- _ => injection Heq as ->
               end;
        repeat split
      | eexists; split; [reflexivity|];
        cbn; repeat split; intros; try discriminate; auto ]).
Qed.

Lemma database_failure_reported_witness :
  snd (lambda_handler ascii_runtime unreachable_server (bolt_request "10")
         empty_world)
  = Return (_agent_error (bolt_request "10")
              "Database error: could not connect to server" (Some 500)) /\
  Db.table (fst (lambda_handler ascii_runtime unreachable_server
                   (bolt_request "10") empty_world)) = [].
Proof.
  pose proof (database_failure_reported ascii_runtime unreachable_server
                (bolt_request "10") empty_world (VStr "REQ1") (VStr "Bolt")
                (VStr "MC5") 10 eq_refl) as H.
  cbv zeta in H. destruct H as [H _].
  destruct (H "could not connect to server" (or_introl eq_refl))
    as (Hs & _ & _ & Ht).
  split; [exact Hs | exact Ht].
Defined.

(* ================================================================== *)
(** ** The envelopes *)
(* ================================================================== *)

(** What steps 1 to 3 return early is an error envelope of status 400. *)
Lemma validate_rejected (rt : runtime) (event : pydict) (response : pyval) :
  validate rt event = Return (Rejected response) ->
  exists message, response = _agent_error event message (Some 400).
Proof.
  unfold validate. destruct (normalize_parameters event) as [params|e];
    [|discriminate].
  destruct params as [| | | | | |p]; try discriminate.
  cbn [bind get]. rewrite missing_fields_dict. cbn [bind].
  destruct (absent_or_falsy p required_fields).
  - destruct (int rt (dict_get p "quantity" (VStr ""))) as [n|[]];
      try discriminate.
    intros H. injection H as <-. now eexists.
  - intros H. injection H as <-. now eexists.
Qed.

(** Whatever the handler returns is one of its two envelopes; the
    success envelope comes with an inserted row. *)
Lemma lambda_handler_returns (rt : runtime) (srv : Db.server) (event : pydict)
  (w : Db.world) (response : pyval) :
  snd (lambda_handler rt srv event w) = Return response ->
  is_error_envelope event response \/
  (exists rid name mc n,
     validate rt event = Return (Accepted rid name mc n) /\
     response = success_response rt event rid name mc n /\
     Db.table (fst (lambda_handler rt srv event w))
     = (Db.table w ++ [Db.mkrow rid name mc n (Db.utcnow srv)])%list).
Proof.
  unfold lambda_handler.
  destruct (validate rt event) as [[early|rid name mc n]|e] eqn:Hv; cbn [snd].
  - intros H. injection H as <-. left.
    destruct (validate_rejected rt event early Hv) as [msg ->].
    exists msg, 400. auto.
  - rewrite insert_line_item_cases. cbv zeta.
    server_cases srv (Db.mkrow rid name mc n (Db.utcnow srv));
      cbn [fst snd]; intros H; injection H as <-;
      try (left; eexists; exists 500; split; [now right | reflexivity]).
    right. exists rid, name, mc, n. repeat split.
  - discriminate.
Qed.



(** C9, as it is worded, fails: the success envelope copies the
    request's [actionGroup] as it is, so a request whose [actionGroup] is
    an object with a [statusCode] gets a success envelope that holds a
    [statusCode] two levels down, though none at its top level. *)
Lemma success_envelope_can_nest_status_code :
  snd (lambda_handler ascii_runtime good_server nested_status_request empty_world)
  = Return (success_response ascii_runtime nested_status_request (VStr "REQ1")
              (VStr "Bolt") (VStr "MC5") 10) /\
  response_path
    (snd (lambda_handler ascii_runtime good_server nested_status_request
            empty_world))
    ["response"; "actionGroup"; "statusCode"] = Some (VInt 200) /\
  mentions_key "statusCode"
    (success_response ascii_runtime nested_status_request (VStr "REQ1")
       (VStr "Bolt") (VStr "MC5") 10) = true /\
  response_path
    (snd (lambda_handler ascii_runtime good_server nested_status_request
            empty_world))
    ["statusCode"] = None.
Proof. repeat split. Qed.

(** C9 (amended): a response of the handler has no [statusCode] at its
    top level exactly when it is the success envelope, and every error
    envelope has one there.  The success envelope has none under
    [response], [functionResponse], the response body or [TEXT] either,
    and none at any depth when the values it copies from the request (the
    two identifiers and the three parameter values, strings in a request
    of the protocol) hold none. *)
Theorem success_has_no_status_code
  (rt : runtime) (srv : Db.server) (event : pydict) (w : Db.world)
  (response : pyval) :
  snd (lambda_handler rt srv event w) = Return response ->
  (field response "statusCode" = None <-> is_success_envelope rt event response) /\
  (is_error_envelope event response ->
   exists status, field response "statusCode" = Some (VInt status)) /\
  (forall rid name mc n,
     response = success_response rt event rid name mc n ->
     field response "statusCode" = None /\
     path response ["response"; "statusCode"] = None /\
     path response ["response"; "functionResponse"; "statusCode"] = None /\
     path response (response_body_path ++ ["statusCode"])%list = None /\
     path response (response_body_path ++ ["TEXT"; "statusCode"])%list = None /\
     (mentions_key "statusCode" (dict_get event "actionGroup" VNone) = false ->
      mentions_key "statusCode" (dict_get event "function" VNone) = false ->
      mentions_key "statusCode" rid = false ->
      mentions_key "statusCode" name = false ->
      mentions_key "statusCode" mc = false ->
      mentions_key "statusCode" response = false)).
Proof.
  intros H. split; [|split].
  - destruct (lambda_handler_returns rt srv event w response H)
      as [(msg & c & _ & ->)|(rid & name & mc & n & _ & -> & _)].
    + split; [discriminate|].
      intros (rid & name & mc & n & Heq). discriminate Heq.
    + split; [|reflexivity]. intros _. now exists rid, name, mc, n.
  - intros (msg & c & _ & ->). now exists c.
  - intros rid name mc n ->. do 5 (split; [reflexivity|]).
    intros Ha Hf Hr Hn Hm. cbn. now rewrite Ha, Hf, Hr, Hn, Hm.
Qed.

Lemma success_has_no_status_code_witness :
  mentions_key "statusCode"
    (success_response ascii_runtime bolt_mapping (VStr "REQ1") (VStr "Bolt")
       (VStr "") 10) = false.
Proof.
  pose proof (success_has_no_status_code ascii_runtime good_server bolt_mapping
                empty_world
                (success_response ascii_runtime bolt_mapping (VStr "REQ1")
                   (VStr "Bolt") (VStr "") 10) eq_refl) as H.
  destruct H as (_ & _ & H).
  destruct (H (VStr "REQ1") (VStr "Bolt") (VStr "") 10 eq_refl)
    as (_ & _ & _ & _ & _ & Hd).
  exact (Hd eq_refl eq_refl eq_refl eq_refl eq_refl).
Defined.

(* ================================================================== *)
(** ** Parameter normalization *)
(* ================================================================== *)

Lemma normalize_absent (event : pydict) :
  dict_lookup event (VStr "parameters") = None ->
  normalize_parameters event = Return (VDict []).
Proof. intros H. unfold normalize_parameters, dict_get. now rewrite H. Qed.

Lemma normalize_mapping (event m : pydict) :
  dict_lookup event (VStr "parameters") = Some (VDict m) ->
  normalize_parameters event = Return (VDict m).
Proof. intros H. unfold normalize_parameters, dict_get. now rewrite H. Qed.

Lemma normalize_sequence (event : pydict) (items : list pyval) :
  dict_lookup event (VStr "parameters") = Some (VList items) ->
  normalize_parameters event =
  (d <- dict_comprehension items [] ;; Return (VDict d)).
Proof.
  intros H. unfold normalize_parameters, dict_get, getitem. now rewrite H.
Qed.

(** The comprehension over well-formed pairs: every key reads as the
    last pair of that name, or as before when no pair has it. *)
Lemma dict_comprehension_pairs (items : list pyval) (pairs : list (pyval * pyval)) :
  Forall2 is_pair items pairs ->
  Forall (fun pair => hashable (fst pair) = true) pairs ->
  forall acc, exists d,
    dict_comprehension items acc = Return d /\
    forall k, dict_lookup d k =
              match last_seen pairs k with
              | Some v => Some v
              | None => dict_lookup acc k
              end.
Proof.
  induction 1 as [|item [name value] items pairs [Hname Hvalue] _ IH];
    intros Hh acc.
  - exists acc. split; reflexivity.
  - inversion Hh as [|? ? Hhead Htail]; subst. cbn [fst snd] in *.
    destruct (IH Htail (dict_setitem acc name value)) as (d & Hd & Hl).
    exists d. split.
    + cbn [dict_comprehension]. rewrite Hname, Hvalue. cbn [bind].
      now rewrite Hhead.
    + intros k. rewrite Hl. cbn [last_seen].
      destruct (last_seen pairs k); [reflexivity|].
      rewrite dict_lookup_setitem by assumption.
      now destruct (key_eqb name k).
Qed.

Lemma dict_setitem_fresh (d : pydict) (k v : pyval) :
  Forall (fun entry => key_eqb (fst entry) k = false) d ->
  dict_setitem d k v = (d ++ [(k, v)])%list.
Proof.
  induction 1 as [|[k' v'] d Hk _ IH]; cbn [dict_setitem app].
  - reflexivity.
  - cbn [fst] in Hk. now rewrite Hk, IH.
Qed.

Lemma distinct_names_before (acc rest : pydict) (name value : pyval) :
  distinct_names (acc ++ (name, value) :: rest) ->
  Forall (fun entry => key_eqb (fst entry) name = false) acc.
Proof.
  induction acc as [|[k' v'] acc IH]; cbn [app distinct_names].
  - constructor.
  - intros [Hk Hd]. constructor.
    + cbn [fst]. rewrite Forall_forall in Hk.
      apply (Hk (name, value)). apply in_or_app. right. now left.
    + now apply IH.
Qed.

(** With no name repeated the comprehension keeps the pairs as they
    come. *)
Lemma dict_comprehension_distinct (items : list pyval)
  (pairs : list (pyval * pyval)) :
  Forall2 is_pair items pairs ->
  Forall (fun pair => hashable (fst pair) = true) pairs ->
  forall acc, distinct_names (acc ++ pairs) ->
  dict_comprehension items acc = Return (acc ++ pairs)%list.
Proof.
  induction 1 as [|item [name value] items pairs [Hname Hvalue] _ IH];
    intros Hh acc Hd.
  - now rewrite app_nil_r.
  - inversion Hh as [|? ? Hhead Htail]; subst. cbn [fst snd] in *.
    cbn [dict_comprehension]. rewrite Hname, Hvalue. cbn [bind]. rewrite Hhead.
    rewrite (dict_setitem_fresh acc name value (distinct_names_before _ _ _ _ Hd)).
    rewrite (IH Htail (acc ++ [(name, value)])%list).
    + now rewrite <- app_assoc.
    + now rewrite <- app_assoc.
Qed.

(** Step 1 gives a dict on every well-shaped request. *)
Lemma normalize_well_shaped (event : pydict) :
  well_shaped event -> exists p, normalize_parameters event = Return (VDict p).
Proof.
  intros [H|m H|items pairs H Hp Hh].
  - exists []. now apply normalize_absent.
  - exists m. now apply normalize_mapping.
  - destruct (dict_comprehension_pairs items pairs Hp Hh []) as (d & Hd & _).
    exists d. rewrite (normalize_sequence event items H), Hd. reflexivity.
Qed.

(** The handler reads its request through step 1 and through the two
    identifiers it echoes, and through nothing else. *)
Lemma lambda_handler_reads (rt : runtime) (srv : Db.server)
  (event event' : pydict) (w : Db.world) :
  normalize_parameters event' = normalize_parameters event ->
  dict_lookup event' (VStr "actionGroup") = dict_lookup event (VStr "actionGroup") ->
  dict_lookup event' (VStr "function") = dict_lookup event (VStr "function") ->
  lambda_handler rt srv event' w = lambda_handler rt srv event w.
Proof.
  intros Hn Ha Hf.
  assert (He : forall message status,
             _agent_error event' message status = _agent_error event message status).
  { intros. unfold _agent_error, dict_get. now rewrite Ha, Hf. }
  assert (Hs : forall rid name mc n,
             success_response rt event' rid name mc n
             = success_response rt event rid name mc n).
  { intros. unfold success_response, dict_get. now rewrite Ha, Hf. }
  assert (Hv : validate rt event' = validate rt event).
  { unfold validate. rewrite Hn.
    destruct (normalize_parameters event) as [[| | | | | |p]|e]; try reflexivity.
    cbn [bind get]. rewrite missing_fields_dict. cbn [bind].
    now rewrite !He. }
  unfold lambda_handler. rewrite Hv.
  destruct (validate rt event) as [[early|rid name mc n]|e]; try reflexivity.
  destruct (Db.insert_line_item srv rid name mc n w) as [w' [err|]].
  - now rewrite He.
  - now rewrite Hs.
Qed.

(** C6: step 1 reads nothing of the request but its [parameters] field.
    On a sequence of name and value pairs it gives the mapping in which
    every name reads as the value of the last pair of that name; given
    that mapping directly as the field, step 1 gives the same result and
    the handler the same outcome, and when no name is repeated the
    result is the pairs themselves.  A
    mapping is passed on as it is.  Without the field the result is the
    empty mapping, and the handler reports the three required fields as
    missing.  The sequence [{"name":"quantity","value":"5"}] and the
    mapping [{"quantity":"5"}] normalize to the same dict. *)
Theorem normalization_of_parameters :
  (forall event event' : pydict,
     dict_lookup event (VStr "parameters") = dict_lookup event' (VStr "parameters") ->
     normalize_parameters event = normalize_parameters event') /\
  (forall (event : pydict) (items : list pyval) (pairs : list (pyval * pyval)),
     dict_lookup event (VStr "parameters") = Some (VList items) ->
     Forall2 is_pair items pairs ->
     Forall (fun pair => hashable (fst pair) = true) pairs ->
     exists d : pydict,
       normalize_parameters event = Return (VDict d) /\
       (forall k, dict_lookup d k = last_seen pairs k) /\
       (forall event' : pydict,
          dict_lookup event' (VStr "parameters") = Some (VDict d) ->
          normalize_parameters event' = normalize_parameters event /\
          (dict_lookup event' (VStr "actionGroup")
             = dict_lookup event (VStr "actionGroup") ->
           dict_lookup event' (VStr "function")
             = dict_lookup event (VStr "function") ->
           forall (rt : runtime) (srv : Db.server) (w : Db.world),
             lambda_handler rt srv event' w = lambda_handler rt srv event w)) /\
       (distinct_names pairs -> d = pairs)) /\
  (forall event m : pydict,
     dict_lookup event (VStr "parameters") = Some (VDict m) ->
     normalize_parameters event = Return (VDict m)) /\
  (forall event : pydict,
     dict_lookup event (VStr "parameters") = None ->
     normalize_parameters event = Return (VDict []) /\
     forall (rt : runtime) (srv : Db.server) (w : Db.world),
       lambda_handler rt srv event w =
       (w, Return (_agent_error event
                     "Missing required field(s): requisition_id, item_name, quantity"
                     (Some 400)))) /\
  normalize_parameters
    (request (VList [dict_of [("name", VStr "quantity"); ("value", VStr "5")]]))
  = Return (dict_of [("quantity", VStr "5")]) /\
  normalize_parameters (request (dict_of [("quantity", VStr "5")]))
  = Return (dict_of [("quantity", VStr "5")]).
Proof.
  split; [|split; [|split; [|split; [|split; reflexivity]]]].
  - intros event event' H.
    unfold normalize_parameters, dict_get, getitem. now rewrite H.
  - intros event items pairs H Hp Hh.
    destruct (dict_comprehension_pairs items pairs Hp Hh []) as (d & Hd & Hl).
    assert (Hnorm : normalize_parameters event = Return (VDict d)).
    { rewrite (normalize_sequence event items H), Hd. reflexivity. }
    exists d. split; [exact Hnorm|]. split; [|split].
    + intros k. rewrite Hl. now destruct (last_seen pairs k).
    + intros event' H'.
      assert (Hsame : normalize_parameters event' = normalize_parameters event).
      { now rewrite Hnorm, (normalize_mapping event' d H'). }
      split; [exact Hsame|]. intros Ha Hf rt srv w.
      now apply lambda_handler_reads.
    + intros Hdist.
      pose proof (dict_comprehension_distinct items pairs Hp Hh [] Hdist) as Hd'.
      cbn [app] in Hd'. congruence.
  - exact normalize_mapping.
  - intros event H. split; [now apply normalize_absent|].
    intros rt srv w. unfold lambda_handler.
    now rewrite (validate_dict rt event [] (normalize_absent event H)).
Qed.

Lemma normalization_of_parameters_witness :
  exists d : pydict,
    normalize_parameters
      (request (VList [param "quantity" "5"; param "item_name" "Nut";
                       param "quantity" "6"])) = Return (VDict d) /\
    dict_lookup d (VStr "quantity") = Some (VStr "6").
Proof.
  assert (Hp : Forall2 is_pair
                 [param "quantity" "5"; param "item_name" "Nut";
                  param "quantity" "6"]
                 [(VStr "quantity", VStr "5"); (VStr "item_name", VStr "Nut");
                  (VStr "quantity", VStr "6")]).
  { repeat first [apply Forall2_cons | apply Forall2_nil | split | reflexivity]. }
  assert (Hh : Forall (fun pair : pyval * pyval => hashable (fst pair) = true)
                 [(VStr "quantity", VStr "5"); (VStr "item_name", VStr "Nut");
                  (VStr "quantity", VStr "6")]).
  { repeat first [apply Forall_cons | apply Forall_nil | reflexivity]. }
  destruct (proj1 (proj2 normalization_of_parameters)
              (request (VList [param "quantity" "5"; param "item_name" "Nut";
                               param "quantity" "6"]))
              _ _ eq_refl Hp Hh) as (d & Hd & Hl & _).
  exists d. split; [exact Hd|]. now rewrite Hl.
Defined.

(* ================================================================== *)
(** ** Exceptions that leave the handler *)
(* ================================================================== *)

Lemma int_of_ascii_total (s : string) :
  (exists n, int_of_ascii s = Return n) \/ int_of_ascii s = Raise ValueError.
Proof.
  unfold int_of_ascii. destruct (split_sign (skip_spaces s)) as [sign body].
  destruct (starts_with_underscore body); [now right|].
  destruct (scan_digits body false 0 0) as [[[n digits] rest]|]; [|now right].
  destruct digits; [now right|].
  destruct (skip_spaces rest); [left; now eexists | now right].
Qed.

(** [int()] of a text gives an integer or raises ValueError, nothing
    else. *)
Lemma int_of_str_total (rt : runtime) (s : string) :
  (exists n, int_of_str rt s = Return n) \/ int_of_str rt s = Raise ValueError.
Proof.
  unfold int_of_str. destruct (is_ascii_text s).
  - apply int_of_ascii_total.
  - destruct (int_of_unicode rt s); [left; now eexists | now right].
Qed.

Lemma int_of_scalar (rt : runtime) (v : pyval) :
  is_container v = false -> is_infinite v = false -> truthy v = true ->
  (exists n, int rt v = Return n) \/ int rt v = Raise ValueError.
Proof.
  destruct v as [|b|n|f|s|l|d]; cbn [is_container is_infinite truthy int];
    intros Hc Hi Ht; try discriminate.
  - left. now eexists.
  - left. now eexists.
  - destruct f; try discriminate; cbn [int_of_float];
      [left; now eexists | now right].
  - apply int_of_str_total.
Qed.

Lemma quantity_present (p : pydict) :
  absent_or_falsy p required_fields = [] ->
  exists v, dict_lookup p (VStr "quantity") = Some v /\ truthy v = true.
Proof.
  unfold absent_or_falsy, required_fields, dict_get. cbn [filter].
  destruct (dict_lookup p (VStr "quantity")) as [v|].
  - intros H. exists v. split; [reflexivity|].
    destruct (truthy v); [reflexivity|].
    destruct (negb (truthy _)); [discriminate|].
    destruct (negb (truthy _)); discriminate.
  - intros H. exfalso. cbn [truthy negb] in H.
    destruct (negb (truthy _)); [discriminate|].
    destruct (negb (truthy _)); discriminate.
Qed.

(** C7, as the specification words it, fails: step 1 raises on a
    sequence whose element has no [value], and the exception leaves the
    handler; so do the AttributeError of a [parameters] field that is
    null or a text, the TypeError of a sequence element that is no
    object, and the TypeError of [int()] on a list. *)
Lemma malformed_parameters_raise :
  normalize_parameters (request (VList [dict_of [("name", VStr "quantity")]]))
  = Raise (KeyError "value") /\
  snd (lambda_handler ascii_runtime good_server
         (request (VList [dict_of [("name", VStr "quantity")]])) empty_world)
  = Raise (KeyError "value") /\
  snd (lambda_handler ascii_runtime good_server (request VNone) empty_world)
  = Raise AttributeError /\
  snd (lambda_handler ascii_runtime good_server
         (request (VStr "quantity=5")) empty_world)
  = Raise AttributeError /\
  snd (lambda_handler ascii_runtime good_server
         (request (VList [VStr "quantity"])) empty_world)
  = Raise TypeError /\
  snd (lambda_handler ascii_runtime good_server
         (request (dict_of [("requisition_id", VStr "REQ1");
                            ("item_name", VStr "Bolt");
                            ("quantity", VList [VInt 5])])) empty_world)
  = Raise TypeError.
Proof. repeat split. Qed.

(** C7 (amended): on a request whose [parameters] field is absent, a
    mapping, or a sequence of objects that each have a [name] usable as a
    key and a [value], whose [quantity] is no list, no dict and no
    infinite float, and whose integers have at most 4300 digits, the
    handler raises nothing: it returns its success envelope or an error
    envelope of status 400 or 500. *)
Theorem well_shaped_request_gets_envelope
  (rt : runtime) (srv : Db.server) (event : pydict) (w : Db.world) :
  well_shaped event ->
  (forall (p : pydict) (v : pyval),
     normalize_parameters event = Return (VDict p) ->
     dict_lookup p (VStr "quantity") = Some v ->
     is_container v = false /\ is_infinite v = false) ->
  (forall (p : pydict) (k : string) (v : pyval),
     normalize_parameters event = Return (VDict p) ->
     dict_lookup p (VStr k) = Some v -> printable v) ->
  exists response : pyval,
    snd (lambda_handler rt srv event w) = Return response /\
    (is_success_envelope rt event response \/ is_error_envelope event response).
Proof.
  intros Hshape Hq _.
  destruct (normalize_well_shaped event Hshape) as [p Hn].
  assert (Hv : exists r, validate rt event = Return r).
  { rewrite (validate_dict rt event p Hn).
    destruct (absent_or_falsy p required_fields) eqn:Hm; [|now eexists].
    destruct (quantity_present p Hm) as (v & Hl & Ht).
    rewrite (dict_get_present p "quantity" v (VStr "") Hl).
    destruct (Hq p v Hn Hl) as [Hc Hi].
    destruct (int_of_scalar rt v Hc Hi Ht) as [[n ->]| ->]; now eexists. }
  destruct Hv as [r Hv].
  assert (Hr : exists response, snd (lambda_handler rt srv event w) = Return response).
  { unfold lambda_handler. rewrite Hv. destruct r as [early|rid name mc n].
    - now eexists.
    - destruct (Db.insert_line_item srv rid name mc n w) as [w' [err|]];
        now eexists. }
  destruct Hr as [response Hr]. exists response. split; [exact Hr|].
  destruct (lambda_handler_returns rt srv event w response Hr)
    as [He|(rid & name & mc & n & _ & -> & _)].
  - now right.
  - left. now exists rid, name, mc, n.
Qed.

Lemma well_shaped_request_gets_envelope_witness :
  exists response : pyval,
    snd (lambda_handler ascii_runtime unreachable_server (bolt_request "10")
           empty_world) = Return response /\
    (is_success_envelope ascii_runtime (bolt_request "10") response \/
     is_error_envelope (bolt_request "10") response).
Proof.
  apply (well_shaped_request_gets_envelope ascii_runtime unreachable_server
           (bolt_request "10") empty_world).
  - apply (shape_sequence (bolt_request "10")
             [param "requisition_id" "REQ1"; param "item_name" "Bolt";
              param "quantity" "10"; param "material_code" "MC5"]
             [(VStr "requisition_id", VStr "REQ1"); (VStr "item_name", VStr "Bolt");
              (VStr "quantity", VStr "10"); (VStr "material_code", VStr "MC5")]).
    + reflexivity.
    + repeat first [apply Forall2_cons | apply Forall2_nil | split | reflexivity].
    + repeat first [apply Forall_cons | apply Forall_nil | reflexivity].
  - intros p v Hn Hl. vm_compute in Hn. injection Hn as <-.
    vm_compute in Hl. injection Hl as <-. split; reflexivity.
  - intros p k v Hn Hl. vm_compute in Hn. injection Hn as <-.
    cbn [dict_lookup] in Hl.
    repeat match type of Hl with
           | (if ?b then _ else _) = _ => destruct b
           end;
      try discriminate Hl; injection Hl as <-; exact I.
Defined.

(* ================================================================== *)
(** ** Further properties: what one invocation does to the database *)
(* ================================================================== *)

(** Every invocation goes one of the ways of [invocation], and on every
    world it appends that way's rows and calls and gives that way's
    result. *)
Lemma lambda_handler_invocation (rt : runtime) (srv : Db.server) (event : pydict) :
  exists (rows : list Db.row) (session : list Db.call) (out : result pyval),
    invocation rt srv event rows session out /\
    forall w : Db.world,
      lambda_handler rt srv event w =
      (Db.mkworld (Db.table w ++ rows) (Db.calls w ++ session), out).
Proof.
  unfold lambda_handler.
  destruct (validate rt event) as [[early|rid name mc n]|e] eqn:Hv.
  - exists [], [], (Return early). split; [now constructor|].
    intros [t c]. cbn. now rewrite !app_nil_r.
  - pose proof (insert_line_item_cases srv rid name mc n) as Hc. cbv zeta in Hc.
    server_cases srv (Db.mkrow rid name mc n (Db.utcnow srv)).
    + eexists [], _, _. split; [now eapply connect_failed; eauto|].
      intros w. rewrite Hc. cbn [nth possible_sessions]. now rewrite !app_nil_r.
    + eexists [], _, _. split; [now eapply cursor_failed; eauto|].
      intros w. rewrite Hc. cbn [nth possible_sessions]. now rewrite !app_nil_r.
    + eexists [], _, _. split; [now eapply execute_failed; eauto|].
      intros w. rewrite Hc. cbn [nth possible_sessions]. now rewrite !app_nil_r.
    + eexists [], _, _. split; [now eapply commit_failed; eauto|].
      intros w. rewrite Hc. cbn [nth possible_sessions]. now rewrite !app_nil_r.
    + eexists _, _, _. split; [eapply inserted; [eassumption|now repeat split]|].
      intros w. rewrite Hc. reflexivity.
  - exists [], [], (Raise e). split; [now constructor|].
    intros [t c]. cbn. now rewrite !app_nil_r.
Qed.

(** X1: what an invocation does is independent of what is stored: on
    every world it appends the same rows to the table, makes the same
    calls and gives the same result.  It appends no row or exactly one,
    never touches a stored row, and appends one exactly when it returns a
    response without a status code. *)
Theorem handler_effect_is_a_fixed_append
  (rt : runtime) (srv : Db.server) (event : pydict) :
  exists (rows : list Db.row) (session : list Db.call) (out : result pyval),
    (forall w : Db.world,
       lambda_handler rt srv event w =
       (Db.mkworld (Db.table w ++ rows) (Db.calls w ++ session), out)) /\
    (rows = [] \/ exists r, rows = [r]) /\
    ((exists r, rows = [r]) <->
     (exists response, out = Return response /\
                       field response "statusCode" = None)).
Proof.
  destruct (lambda_handler_invocation rt srv event)
    as (rows & session & out & Hi & Hw).
  exists rows, session, out. split; [exact Hw|].
  assert (Hrej : forall response,
             validate rt event = Return (Rejected response) ->
             field response "statusCode" <> None).
  { intros response Hv. destruct (validate_rejected rt event response Hv) as [m ->].
    discriminate. }
  destruct Hi; (split; [ first [now left | right; now eexists] |]);
    (split;
     [ intros [r Hr]; first [discriminate Hr | eexists; split; reflexivity]
     | intros (resp & Hout & Hf); try discriminate Hout;
       try (injection Hout as <-); try discriminate Hf;
       try (exfalso; eapply Hrej; eassumption);
       now eexists ]).
Qed.

(** X2: the calls of one invocation are none at all, or a session that
    starts with the connection and ends by closing it: the cursor is
    closed before the connection, a commit comes only right after an
    executed insert, and nothing follows the close.  The session has the
    commit exactly when the row reaches the table. *)
Theorem session_is_ordered
  (rt : runtime) (srv : Db.server) (event : pydict) (w : Db.world) :
  exists (session : list Db.call) (r : Db.row),
    Db.calls (fst (lambda_handler rt srv event w)) = (Db.calls w ++ session)%list /\
    In session (possible_sessions r) /\
    (In Db.Commit session <->
     Db.table (fst (lambda_handler rt srv event w)) = (Db.table w ++ [r])%list) /\
    (~ In Db.Commit session ->
     Db.table (fst (lambda_handler rt srv event w)) = Db.table w).
Proof.
  destruct (lambda_handler_invocation rt srv event)
    as (rows & session & out & Hi & Hw).
  rewrite (Hw w). cbn [fst Db.calls Db.table]. exists session.
  assert (Hneq : forall r : Db.row, (Db.table w ++ [])%list
                                    <> (Db.table w ++ [r])%list).
  { intros r Heq. apply app_inv_head in Heq. discriminate Heq. }
  destruct Hi;
    first [exists (Db.mkrow rid name mc n (Db.utcnow srv))
          | exists (Db.mkrow VNone VNone VNone 0 0)].
  all: split; [reflexivity|].
  all: split; [cbn; auto 10|].
  all: unfold full_session; cbn [nth possible_sessions In].
  all: split;
    [ split;
      [ intros Hin;
        repeat match goal with
               | Hor : _ \/ _ |- _ => destruct Hor
               end;
        first [discriminate | contradiction | reflexivity]
      | intros Heq; first [now apply Hneq in Heq | auto 10] ]
    | intros Hno; first [now rewrite app_nil_r | exfalso; apply Hno; auto 10] ].
Qed.

(** X3: the database is contacted only for an accepted request: when an
    exception leaves the handler, or when it answers with status 400,
    the world is what it was, the list of calls included. *)
Theorem no_database_call_without_accepted_request
  (rt : runtime) (srv : Db.server) (event : pydict) (w : Db.world) :
  (exists e, snd (lambda_handler rt srv event w) = Raise e) \/
  response_path (snd (lambda_handler rt srv event w)) ["statusCode"]
    = Some (VInt 400) ->
  fst (lambda_handler rt srv event w) = w.
Proof.
  destruct (lambda_handler_invocation rt srv event)
    as (rows & session & out & Hi & Hw).
  rewrite (Hw w). cbn [fst snd].
  destruct Hi; intros [[e' He]|Hs]; try discriminate;
    destruct w as [t c]; cbn; now rewrite !app_nil_r.
Qed.

Lemma no_database_call_without_accepted_request_witness :
  fst (lambda_handler ascii_runtime good_server (bolt_request "abc") empty_world)
  = empty_world /\
  fst (lambda_handler ascii_runtime good_server (request VNone) empty_world)
  = empty_world.
Proof.
  split.
  - exact (no_database_call_without_accepted_request ascii_runtime good_server
             (bolt_request "abc") empty_world (or_intror eq_refl)).
  - exact (no_database_call_without_accepted_request ascii_runtime good_server
             (request VNone) empty_world
             (or_introl (ex_intro _ AttributeError eq_refl))).
Defined.

(** X4: nothing is checked against what is stored: the same accepted
    request sent twice to a server that answers inserts the same row
    twice, in two full sessions, and gets the same response both
    times. *)
Theorem repeated_request_inserts_duplicate
  (rt : runtime) (srv : Db.server) (event : pydict) (w : Db.world)
  (rid name mc : pyval) (n : Z) :
  validate rt event = Return (Accepted rid name mc n) ->
  succeeds srv (Db.mkrow rid name mc n (Db.utcnow srv)) ->
  let r := Db.mkrow rid name mc n (Db.utcnow srv) in
  let first := lambda_handler rt srv event w in
  let second := lambda_handler rt srv event (fst first) in
  Db.table (fst second) = (Db.table w ++ [r; r])%list /\
  Db.calls (fst second) = (Db.calls w ++ full_session r ++ full_session r)%list /\
  snd second = snd first /\
  snd second = Return (success_response rt event rid name mc n).
Proof.
  intros Hv Hs r first second. subst first second.
  rewrite !(lambda_handler_accepted_ok rt srv event _ _ _ _ _ Hv Hs).
  cbn [fst snd Db.table Db.calls]. fold r.
  rewrite <- !app_assoc. repeat split.
Qed.

Lemma repeated_request_inserts_duplicate_witness :
  Db.table (fst (lambda_handler ascii_runtime good_server (bolt_request "10")
                   (fst (lambda_handler ascii_runtime good_server
                           (bolt_request "10") empty_world))))
  = [Db.mkrow (VStr "REQ1") (VStr "Bolt") (VStr "MC5") 10 1700000000;
     Db.mkrow (VStr "REQ1") (VStr "Bolt") (VStr "MC5") 10 1700000000].
Proof.
  exact (proj1 (repeated_request_inserts_duplicate ascii_runtime good_server
                  (bolt_request "10") empty_world (VStr "REQ1") (VStr "Bolt")
                  (VStr "MC5") 10 eq_refl
                  (conj eq_refl (conj eq_refl (conj eq_refl eq_refl))))).
Defined.

(** X5: a response without a status code tells what was stored: a row
    was appended to the table, the response body echoes its
    [requisition_id], [item_name] and [material_code] as they are and
    its quantity in a decimal form that reads back as the stored
    integer, and its [created_at] is the clock's time. *)
Theorem response_describes_inserted_row
  (rt : runtime) (srv : Db.server) (event : pydict) (w : Db.world)
  (response : pyval) :
  snd (lambda_handler rt srv event w) = Return response ->
  field response "statusCode" = None ->
  exists r : Db.row,
    Db.table (fst (lambda_handler rt srv event w)) = (Db.table w ++ [r])%list /\
    path response (response_body_path ++ ["requisition_id"])%list
      = Some (Db.requisition_id r) /\
    path response (response_body_path ++ ["item_name"])%list
      = Some (Db.item_name r) /\
    path response (response_body_path ++ ["material_code"])%list
      = Some (Db.material_code r) /\
    (exists text : string,
       path response (response_body_path ++ ["quantity"])%list = Some (VStr text) /\
       int_of_str rt text = Return (Db.quantity r)) /\
    Db.created_at r = Db.utcnow srv.
Proof.
  intros Hout Hf.
  destruct (lambda_handler_returns rt srv event w response Hout)
    as [(msg & c & _ & ->)|(rid & name & mc & n & _ & -> & Ht)].
  - discriminate Hf.
  - exists (Db.mkrow rid name mc n (Db.utcnow srv)).
    split; [exact Ht|]. do 3 (split; [reflexivity|]).
    split; [|reflexivity].
    exists (str_of_int n). split; [reflexivity|].
    apply int_of_str_str_of_int.
Qed.

Lemma response_describes_inserted_row_witness :
  exists r : Db.row,
    Db.table (fst (lambda_handler ascii_runtime good_server (bolt_request " +7 ")
                     empty_world)) = [r] /\
    Db.quantity r = 7.
Proof.
  destruct (response_describes_inserted_row ascii_runtime good_server
              (bolt_request " +7 ") empty_world
              (success_response ascii_runtime (bolt_request " +7 ") (VStr "REQ1")
                 (VStr "Bolt") (VStr "MC5") 7) eq_refl eq_refl)
    as (r & Ht & _ & _ & _ & (text & Hq & Hr) & _).
  exists r. split; [exact Ht|].
  cbn in Hq. injection Hq as <-. cbn in Hr. now injection Hr as <-.
Defined.

(* ================================================================== *)
(** ** Further properties: validation *)
(* ================================================================== *)

(** What steps 1 to 3 return early carries one of the eight texts. *)
Lemma validate_rejected_text (rt : runtime) (event : pydict) (response : pyval) :
  validate rt event = Return (Rejected response) ->
  exists message,
    In message validation_messages /\
    response = _agent_error event message (Some 400).
Proof.
  unfold validate. destruct (normalize_parameters event) as [params|e];
    [|discriminate].
  destruct params as [| | | | | |p]; try discriminate.
  cbn [bind get]. rewrite missing_fields_dict. cbn [bind].
  unfold absent_or_falsy, required_fields. cbn [filter].
  destruct (truthy (dict_get p "requisition_id" VNone)),
    (truthy (dict_get p "item_name" VNone)),
    (truthy (dict_get p "quantity" VNone)); cbn [negb];
    try (intros H; injection H as <-; eexists; split; [|reflexivity];
         cbn; auto 10).
  destruct (int rt (dict_get p "quantity" (VStr ""))) as [n|[]]; try discriminate.
  intros H; injection H as <-; eexists; split; [|reflexivity]. cbn; auto 10.
Qed.

(** X6: a response of status 400 carries one of eight fixed texts: one
    for each non-empty choice of missing fields among [requisition_id],
    [item_name], [quantity], in that order, or "Quantity must be an
    integer".  No value of the request appears in it.  The eight texts
    differ from one another, so the text tells which fields were
    missing. *)
Theorem validation_error_texts
  (rt : runtime) (srv : Db.server) (event : pydict) (w : Db.world) :
  response_path (snd (lambda_handler rt srv event w)) ["statusCode"]
    = Some (VInt 400) ->
  (exists message : string,
     In message validation_messages /\
     snd (lambda_handler rt srv event w)
     = Return (_agent_error event message (Some 400)) /\
     response_path (snd (lambda_handler rt srv event w)) text_body_path
     = Some (VStr message)) /\
  NoDup validation_messages.
Proof.
  intros Hs. split.
  - destruct (lambda_handler_invocation rt srv event)
      as (rows & session & out & Hi & Hw).
    rewrite (Hw w) in *. cbn [snd] in *.
    destruct Hi; try discriminate Hs.
    destruct (validate_rejected_text rt event response H) as (msg & Hin & ->).
    exists msg. repeat split. exact Hin.
  - unfold validation_messages.
    repeat (constructor; [cbn; intros Hin;
                          repeat (destruct Hin as [Hin|Hin]; [discriminate Hin|]);
                          exact Hin|]).
    constructor.
Qed.

Lemma validation_error_texts_witness :
  In "Missing required field(s): requisition_id, quantity" validation_messages /\
  snd (lambda_handler ascii_runtime good_server
         (request (VList [param "item_name" "Bolt"; param "quantity" ""]))
         empty_world)
  = Return (_agent_error
              (request (VList [param "item_name" "Bolt"; param "quantity" ""]))
              "Missing required field(s): requisition_id, quantity" (Some 400)).
Proof.
  destruct (proj1 (validation_error_texts ascii_runtime good_server
                     (request (VList [param "item_name" "Bolt";
                                      param "quantity" ""]))
                     empty_world eq_refl)) as (msg & Hin & Hout & _).
  vm_compute in Hout. injection Hout as <-.
  split; [exact Hin | reflexivity].
Defined.

(* ================================================================== *)
(** ** Further properties: what the handler reads of a request *)
(* ================================================================== *)

Lemma dict_get_agree (p p' : pydict) (k : string) (default : pyval) :
  dict_lookup p (VStr k) = dict_lookup p' (VStr k) ->
  dict_get p k default = dict_get p' k default.
Proof. unfold dict_get. now intros ->. Qed.

(** The handler on two requests whose normalized parameters agree on the
    four keys and whose identifiers agree. *)
Lemma lambda_handler_agree (rt : runtime) (srv : Db.server)
  (event event' p p' : pydict) (w : Db.world) :
  normalize_parameters event = Return (VDict p) ->
  normalize_parameters event' = Return (VDict p') ->
  (forall k, In k parameter_keys ->
             dict_lookup p (VStr k) = dict_lookup p' (VStr k)) ->
  dict_lookup event (VStr "actionGroup") = dict_lookup event' (VStr "actionGroup") ->
  dict_lookup event (VStr "function") = dict_lookup event' (VStr "function") ->
  lambda_handler rt srv event w = lambda_handler rt srv event' w.
Proof.
  intros Hn Hn' Hk Ha Hf.
  assert (He : forall message status,
             _agent_error event message status = _agent_error event' message status).
  { intros. unfold _agent_error, dict_get. now rewrite Ha, Hf. }
  assert (Hs : forall rid name mc n,
             success_response rt event rid name mc n
             = success_response rt event' rid name mc n).
  { intros. unfold success_response, dict_get. now rewrite Ha, Hf. }
  assert (Hg : forall k default, In k parameter_keys ->
                                 dict_get p k default = dict_get p' k default).
  { intros k default Hin. apply dict_get_agree. now apply Hk. }
  assert (Hv : validate rt event = validate rt event').
  { rewrite (validate_dict rt event p Hn), (validate_dict rt event' p' Hn').
    unfold absent_or_falsy, required_fields. cbn [filter].
    rewrite !(Hg "requisition_id"), !(Hg "item_name"), !(Hg "quantity"),
      !(Hg "material_code") by (cbn; auto 10).
    now rewrite !He. }
  unfold lambda_handler. rewrite Hv.
  destruct (validate rt event') as [[early|rid name mc n]|e]; try reflexivity.
  destruct (Db.insert_line_item srv rid name mc n w) as [w' [err|]].
  - now rewrite He.
  - now rewrite Hs.
Qed.

(** X7: of a request the handler reads the four parameters
    [requisition_id], [item_name], [quantity], [material_code] and the
    two identifiers, and nothing else: two requests whose normalized
    parameters agree on these four names and whose [actionGroup] and
    [function] agree get the same result and leave the same world,
    whatever other parameters or fields they carry. *)
Theorem other_parameters_are_ignored
  (rt : runtime) (srv : Db.server) (event event' p p' : pydict) (w : Db.world) :
  normalize_parameters event = Return (VDict p) ->
  normalize_parameters event' = Return (VDict p') ->
  (forall k, In k parameter_keys ->
             dict_lookup p (VStr k) = dict_lookup p' (VStr k)) ->
  dict_lookup event (VStr "actionGroup") = dict_lookup event' (VStr "actionGroup") ->
  dict_lookup event (VStr "function") = dict_lookup event' (VStr "function") ->
  lambda_handler rt srv event w = lambda_handler rt srv event' w.
Proof. exact (lambda_handler_agree rt srv event event' p p' w). Qed.

Lemma other_parameters_are_ignored_witness :
  lambda_handler ascii_runtime good_server (bolt_request "10") empty_world
  = lambda_handler ascii_runtime good_server
      ((VStr "sessionId", VStr "s-1")
       :: request (dict_of [("note", VStr "urgent"); ("material_code", VStr "MC5");
                            ("quantity", VStr "10"); ("item_name", VStr "Bolt");
                            ("requisition_id", VStr "REQ1")]))
      empty_world.
Proof.
  apply (other_parameters_are_ignored ascii_runtime good_server
           (bolt_request "10")
           ((VStr "sessionId", VStr "s-1")
            :: request (dict_of [("note", VStr "urgent");
                                 ("material_code", VStr "MC5");
                                 ("quantity", VStr "10"); ("item_name", VStr "Bolt");
                                 ("requisition_id", VStr "REQ1")]))
           [(VStr "requisition_id", VStr "REQ1"); (VStr "item_name", VStr "Bolt");
            (VStr "quantity", VStr "10"); (VStr "material_code", VStr "MC5")]
           [(VStr "note", VStr "urgent"); (VStr "material_code", VStr "MC5");
            (VStr "quantity", VStr "10"); (VStr "item_name", VStr "Bolt");
            (VStr "requisition_id", VStr "REQ1")]
           empty_world eq_refl eq_refl).
  - intros k Hk. cbn in Hk.
    destruct Hk as [<-|[<-|[<-|[<-|[]]]]]; reflexivity.
  - reflexivity.
  - reflexivity.
Defined.

Lemma keyclass_eqb_sym (a b : keyclass) : keyclass_eqb a b = keyclass_eqb b a.
Proof.
  destruct (keyclass_eqb a b) eqn:E; symmetry.
  - apply keyclass_eqb_eq in E. subst. apply keyclass_eqb_refl.
  - destruct (keyclass_eqb b a) eqn:E'; [|reflexivity].
    apply keyclass_eqb_eq in E'. subst. now rewrite keyclass_eqb_refl in E.
Qed.

Lemma key_eqb_sym (a b : pyval) : key_eqb a b = key_eqb b a.
Proof.
  unfold key_eqb. destruct (key_class a), (key_class b); trivial.
  apply keyclass_eqb_sym.
Qed.

Lemma distinct_names_permutation (pairs pairs' : list (pyval * pyval)) :
  Permutation pairs pairs' -> distinct_names pairs -> distinct_names pairs'.
Proof.
  induction 1 as [|[name value] l l' Hp IH|[n1 v1] [n2 v2] l|l l' l'' _ IH1 _ IH2];
    cbn [distinct_names].
  - trivial.
  - intros [Hf Hd]. split; [|now apply IH].
    now apply (Permutation_Forall Hp).
  - intros [Hf [Hf' Hd]]. inversion Hf as [|? ? Hhead Htail]; subst.
    cbn [fst] in Hhead. split; [|split; trivial].
    constructor; [|assumption]. cbn [fst]. now rewrite key_eqb_sym.
  - auto.
Qed.

(** With no name repeated, what a name reads as does not depend on the
    order of the pairs. *)
Lemma last_seen_permutation (pairs pairs' : list (pyval * pyval)) (k : pyval) :
  Permutation pairs pairs' -> distinct_names pairs ->
  last_seen pairs k = last_seen pairs' k.
Proof.
  induction 1 as [|[name value] l l' Hp IH|[n1 v1] [n2 v2] l|l l' l'' Hp1 IH1 _ IH2].
  - reflexivity.
  - cbn [distinct_names last_seen]. intros [_ Hd]. now rewrite (IH Hd).
  - cbn [distinct_names last_seen]. intros [Hf _].
    inversion Hf as [|? ? Hhead _]; subst. cbn [fst] in Hhead.
    destruct (last_seen l k); [reflexivity|].
    destruct (key_eqb n2 k) eqn:E2, (key_eqb n1 k) eqn:E1; try reflexivity.
    exfalso. rewrite (key_eqb_trans_l n2 k n1 E2) in Hhead.
    rewrite key_eqb_sym, E1 in Hhead. discriminate.
  - intros Hd. rewrite (IH1 Hd). apply IH2.
    now apply (distinct_names_permutation l l').
Qed.

(** X8: the order of the elements of the [parameters] sequence does not
    matter when no name is repeated: two requests whose sequences hold
    the same name and value pairs in different orders, with the same
    identifiers, get the same result and leave the same world. *)
Theorem parameter_order_is_irrelevant
  (rt : runtime) (srv : Db.server) (event event' : pydict) (w : Db.world)
  (items items' : list pyval) (pairs pairs' : list (pyval * pyval)) :
  dict_lookup event (VStr "parameters") = Some (VList items) ->
  dict_lookup event' (VStr "parameters") = Some (VList items') ->
  Forall2 is_pair items pairs ->
  Forall2 is_pair items' pairs' ->
  Forall (fun pair => hashable (fst pair) = true) pairs ->
  distinct_names pairs ->
  Permutation pairs pairs' ->
  dict_lookup event (VStr "actionGroup") = dict_lookup event' (VStr "actionGroup") ->
  dict_lookup event (VStr "function") = dict_lookup event' (VStr "function") ->
  lambda_handler rt srv event w = lambda_handler rt srv event' w.
Proof.
  intros H H' Hp Hp' Hh Hd Hperm Ha Hf.
  assert (Hh' : Forall (fun pair => hashable (fst pair) = true) pairs').
  { now apply (Permutation_Forall Hperm). }
  destruct (dict_comprehension_pairs items pairs Hp Hh []) as (d & Hc & Hl).
  destruct (dict_comprehension_pairs items' pairs' Hp' Hh' []) as (d' & Hc' & Hl').
  apply (lambda_handler_agree rt srv event event' d d' w).
  - rewrite (normalize_sequence event items H), Hc. reflexivity.
  - rewrite (normalize_sequence event' items' H'), Hc'. reflexivity.
  - intros k _. rewrite Hl, Hl'.
    now rewrite (last_seen_permutation pairs pairs' (VStr k) Hperm Hd).
  - exact Ha.
  - exact Hf.
Qed.

Lemma parameter_order_is_irrelevant_witness :
  lambda_handler ascii_runtime good_server (bolt_request "10") empty_world
  = lambda_handler ascii_runtime good_server
      (request (VList [param "quantity" "10"; param "requisition_id" "REQ1";
                       param "item_name" "Bolt"; param "material_code" "MC5"]))
      empty_world.
Proof.
  apply (parameter_order_is_irrelevant ascii_runtime good_server
           (bolt_request "10")
           (request (VList [param "quantity" "10"; param "requisition_id" "REQ1";
                            param "item_name" "Bolt"; param "material_code" "MC5"]))
           empty_world
           [param "requisition_id" "REQ1"; param "item_name" "Bolt";
            param "quantity" "10"; param "material_code" "MC5"]
           [param "quantity" "10"; param "requisition_id" "REQ1";
            param "item_name" "Bolt"; param "material_code" "MC5"]
           [(VStr "requisition_id", VStr "REQ1"); (VStr "item_name", VStr "Bolt");
            (VStr "quantity", VStr "10"); (VStr "material_code", VStr "MC5")]
           [(VStr "quantity", VStr "10"); (VStr "requisition_id", VStr "REQ1");
            (VStr "item_name", VStr "Bolt"); (VStr "material_code", VStr "MC5")]).
  - reflexivity.
  - reflexivity.
  - repeat first [apply Forall2_cons | apply Forall2_nil | split | reflexivity].
  - repeat first [apply Forall2_cons | apply Forall2_nil | split | reflexivity].
  - repeat first [apply Forall_cons | apply Forall_nil | reflexivity].
  - cbn. repeat first [apply Forall_cons | apply Forall_nil | split | reflexivity].
  - apply perm_trans
      with (l' := [(VStr "requisition_id", VStr "REQ1"); (VStr "quantity", VStr "10");
                   (VStr "item_name", VStr "Bolt"); (VStr "material_code", VStr "MC5")]).
    + apply perm_skip. apply perm_swap.
    + apply perm_swap.
  - reflexivity.
  - reflexivity.
Defined.

(* ================================================================== *)
(** ** Further properties: exceptions *)
(* ================================================================== *)

(** Every value is an element step 1 takes or one it stops on. *)
Lemma element_taken_or_malformed (v : pyval) :
  (exists pair, is_pair v pair /\ hashable (fst pair) = true) \/
  (exists e, malformed v e).
Proof.
  destruct v as [| | | | | |d];
    try (right; exists TypeError; apply not_an_object; discriminate).
  destruct (dict_lookup d (VStr "name")) as [name|] eqn:Hname.
  - destruct (dict_lookup d (VStr "value")) as [value|] eqn:Hvalue.
    + destruct (hashable name) eqn:Hh.
      * left. exists (name, value). unfold is_pair, getitem.
        now rewrite Hname, Hvalue.
      * right. exists TypeError. now apply (unhashable_name d name value).
    + right. exists (KeyError "value"). now apply (no_value d name).
  - right. exists (KeyError "name"). now apply no_name.
Qed.

Lemma dict_comprehension_malformed (bad : pyval) (e : exn) (rest : list pyval)
  (acc : pydict) :
  malformed bad e -> dict_comprehension (bad :: rest) acc = Raise e.
Proof.
  intros [v Hv|d Hname|d name Hname Hvalue|d name value Hname Hvalue Hh];
    cbn [dict_comprehension]; unfold getitem.
  - destruct v; try reflexivity. now destruct (Hv entries).
  - now rewrite Hname.
  - now rewrite Hname, Hvalue.
  - rewrite Hname, Hvalue. cbn [bind]. now rewrite Hh.
Qed.

Lemma dict_comprehension_stops (good : list pyval) (pairs : list (pyval * pyval))
  (bad : pyval) (e : exn) (rest : list pyval) :
  Forall2 is_pair good pairs ->
  Forall (fun pair => hashable (fst pair) = true) pairs ->
  malformed bad e ->
  forall acc, dict_comprehension (good ++ bad :: rest) acc = Raise e.
Proof.
  induction 1 as [|item [name value] good pairs [Hname Hvalue] _ IH];
    intros Hh Hbad acc.
  - now apply dict_comprehension_malformed.
  - inversion Hh as [|? ? Hhead Htail]; subst. cbn [fst snd] in *.
    cbn [app dict_comprehension]. rewrite Hname, Hvalue. cbn [bind].
    rewrite Hhead. now apply IH.
Qed.

(** A sequence is taken whole or has a first element step 1 stops on. *)
Lemma sequence_taken_or_stopped (items : list pyval) :
  (exists pairs, Forall2 is_pair items pairs /\
                 Forall (fun pair => hashable (fst pair) = true) pairs) \/
  (exists good pairs bad rest e,
     items = (good ++ bad :: rest)%list /\
     Forall2 is_pair good pairs /\
     Forall (fun pair => hashable (fst pair) = true) pairs /\
     malformed bad e).
Proof.
  induction items as [|item items IH].
  - left. exists []. split; constructor.
  - destruct (element_taken_or_malformed item) as [(pair & Hp & Hh)|(e & He)].
    + destruct IH as [(pairs & Hps & Hhs)
                     |(good & pairs & bad & rest & e & -> & Hps & Hhs & Hbad)].
      * left. exists (pair :: pairs). split; now constructor.
      * right. exists (item :: good), (pair :: pairs), bad, rest, e.
        repeat split; trivial; now constructor.
    + right. exists [], [], item, items, e. repeat split; trivial; constructor.
Qed.

(** X9: on a [parameters] sequence, step 1 stops at the first element
    that is no object (TypeError), has no [name] (KeyError 'name', also
    when [value] is missing too), has a [name] but no [value] (KeyError
    'value'), or has a list or dict as [name] (TypeError): that
    exception leaves the handler and the world is untouched, whatever
    comes after the element.  A sequence without such an element is
    turned into a dict. *)
Theorem first_malformed_element_raises
  (event : pydict) (items : list pyval) :
  dict_lookup event (VStr "parameters") = Some (VList items) ->
  (forall good pairs bad rest e,
     items = (good ++ bad :: rest)%list ->
     Forall2 is_pair good pairs ->
     Forall (fun pair => hashable (fst pair) = true) pairs ->
     malformed bad e ->
     normalize_parameters event = Raise e /\
     forall (rt : runtime) (srv : Db.server) (w : Db.world),
       lambda_handler rt srv event w = (w, Raise e)) /\
  ((exists d, normalize_parameters event = Return (VDict d)) \/
   (exists good pairs bad rest e,
      items = (good ++ bad :: rest)%list /\
      Forall2 is_pair good pairs /\
      Forall (fun pair => hashable (fst pair) = true) pairs /\
      malformed bad e)).
Proof.
  intros H. split.
  - intros good pairs bad rest e -> Hp Hh Hbad.
    assert (Hn : normalize_parameters event = Raise e).
    { rewrite (normalize_sequence event _ H).
      now rewrite (dict_comprehension_stops good pairs bad e rest Hp Hh Hbad []). }
    split; [exact Hn|]. intros rt srv w.
    unfold lambda_handler, validate. now rewrite Hn.
  - destruct (sequence_taken_or_stopped items) as [(pairs & Hp & Hh)|Hstop].
    + left. destruct (dict_comprehension_pairs items pairs Hp Hh []) as (d & Hd & _).
      exists d. rewrite (normalize_sequence event items H), Hd. reflexivity.
    + now right.
Qed.

Lemma first_malformed_element_raises_witness :
  lambda_handler ascii_runtime good_server
    (request (VList [param "requisition_id" "REQ1";
                     dict_of [("value", VStr "Bolt")];
                     VStr "quantity"])) empty_world
  = (empty_world, Raise (KeyError "name")).
Proof.
  refine (proj2 (proj1 (first_malformed_element_raises
                   (request (VList [param "requisition_id" "REQ1";
                                    dict_of [("value", VStr "Bolt")];
                                    VStr "quantity"]))
                   [param "requisition_id" "REQ1"; dict_of [("value", VStr "Bolt")];
                    VStr "quantity"] eq_refl)
                 [param "requisition_id" "REQ1"]
                 [(VStr "requisition_id", VStr "REQ1")]
                 (dict_of [("value", VStr "Bolt")]) [VStr "quantity"]
                 (KeyError "name") eq_refl _ _ _)
            ascii_runtime good_server empty_world).
  - repeat first [apply Forall2_cons | apply Forall2_nil | split | reflexivity].
  - repeat first [apply Forall_cons | apply Forall_nil | reflexivity].
  - apply no_name. reflexivity.
Defined.

(** [int()] of a truthy value, case by case. *)
Lemma int_of_truthy (rt : runtime) (v : pyval) :
  truthy v = true ->
  (is_container v = true /\ is_infinite v = false /\ int rt v = Raise TypeError) \/
  (is_container v = false /\ is_infinite v = true /\
   int rt v = Raise OverflowError) \/
  (is_container v = false /\ is_infinite v = false /\
   ((exists n, int rt v = Return n) \/ int rt v = Raise ValueError)).
Proof.
  intros Ht. destruct (is_container v) eqn:Hc.
  - left. destruct v; try discriminate Hc; repeat split.
  - right. destruct (is_infinite v) eqn:Hi.
    + left. destruct v as [| | |[]| | |]; try discriminate Hi. repeat split.
    + right. repeat split. now apply int_of_scalar.
Qed.

(** X10: the exceptions that leave the handler, all of them, on a
    request whose integers have at most 4300 digits: the one step 1
    raises; AttributeError when the [parameters] field is present and
    neither a sequence nor a mapping; TypeError when the three required
    values are truthy and [quantity] is a list or a dict; OverflowError
    when they are truthy and [quantity] is an infinite float.  The
    database raises nothing to the caller. *)
Theorem exceptions_that_leave_the_handler
  (rt : runtime) (srv : Db.server) (event : pydict) (w : Db.world) (e : exn) :
  (forall (p : pydict) (k : string) (v : pyval),
     normalize_parameters event = Return (VDict p) ->
     dict_lookup p (VStr k) = Some v -> printable v) ->
  (snd (lambda_handler rt srv event w) = Raise e <->
   normalize_parameters event = Raise e \/
   (exists v, normalize_parameters event = Return v /\
              (forall p, v <> VDict p) /\ e = AttributeError) \/
   (exists p, normalize_parameters event = Return (VDict p) /\
              absent_or_falsy p required_fields = [] /\
              is_container (dict_get p "quantity" (VStr "")) = true /\
              e = TypeError) \/
   (exists p, normalize_parameters event = Return (VDict p) /\
              absent_or_falsy p required_fields = [] /\
              is_infinite (dict_get p "quantity" (VStr "")) = true /\
              e = OverflowError)).
Proof.
  intros _.
  assert (Hh : snd (lambda_handler rt srv event w) = Raise e <->
               validate rt event = Raise e).
  { unfold lambda_handler.
    destruct (validate rt event) as [[early|rid name mc n]|e'];
      cbn [snd]; try (split; congruence).
    destruct (Db.insert_line_item srv rid name mc n w) as [w' [err|]];
      cbn [snd]; split; congruence. }
  rewrite Hh. clear Hh.
  destruct (normalize_parameters event) as [v|e'] eqn:Hn.
  - destruct v as [| | | | | |p].
    1-6: unfold validate; rewrite Hn; cbn [bind get]; split;
      [ intros H; injection H as <-; right; left; eexists;
        repeat split; discriminate
      | intros [H|[(v & Hv & _ & ->)|[(p & Hp & _)|(p & Hp & _)]]];
        [discriminate H | reflexivity | discriminate Hp | discriminate Hp] ].
    rewrite (validate_dict rt event p Hn).
    destruct (absent_or_falsy p required_fields) as [|k ks] eqn:Hm.
    + destruct (quantity_present p Hm) as (qty & Hl & Ht).
      pose proof (dict_get_present p "quantity" qty (VStr "") Hl) as Hg.
      rewrite Hg.
      destruct (int_of_truthy rt qty Ht)
        as [(Hc & Hi & Hr)|[(Hc & Hi & Hr)|(Hc & Hi & [[n Hr]|Hr])]];
        rewrite Hr; split;
        try discriminate;
        try (intros H; injection H as <-);
        try (right; right; left; exists p; rewrite Hg; now auto);
        try (right; right; right; exists p; rewrite Hg; now auto);
        intros [H|[(v & Hv & Hnd & _)|[(p' & Hp & _ & Hc' & He)
                                      |(p' & Hp & _ & Hi' & He)]]];
        try discriminate H;
        try (injection Hv as <-; now destruct (Hnd p));
        injection Hp as <-; rewrite Hg in *; congruence.
    + split; [discriminate|].
      intros [H|[(v & Hv & Hnd & _)|[(p' & Hp & Hm' & _)|(p' & Hp & Hm' & _)]]];
        [ discriminate H | injection Hv as <-; now destruct (Hnd p)
        | injection Hp as <-; congruence | injection Hp as <-; congruence ].
  - unfold validate. rewrite Hn. cbn [bind]. split.
    + intros H. left. congruence.
    + intros [H|[(v & Hv & _)|[(p & Hp & _)|(p & Hp & _)]]];
        [congruence | discriminate | discriminate | discriminate].
Qed.

Lemma exceptions_that_leave_the_handler_witness :
  snd (lambda_handler ascii_runtime good_server
         (bolt_with_quantity (VFloat (FInf false))) empty_world)
  = Raise OverflowError.
Proof.
  apply (exceptions_that_leave_the_handler ascii_runtime good_server
           (bolt_with_quantity (VFloat (FInf false))) empty_world OverflowError).
  - intros p k v Hn Hl. vm_compute in Hn. injection Hn as <-.
    cbn [dict_lookup] in Hl.
    repeat match type of Hl with
           | (if ?b then _ else _) = _ => destruct b
           end;
      try discriminate Hl; injection Hl as <-; exact I.
  - right. right. right.
    exists [(VStr "requisition_id", VStr "REQ1"); (VStr "item_name", VStr "Bolt");
            (VStr "quantity", VFloat (FInf false))].
    repeat split.
Defined.

(** X11: a [quantity] that is a number (possible in the mapping form)
    goes through [int()] like a text.  An integer other than 0 is
    accepted as it is and [true] as 1.  A finite float other than 0 is
    accepted with its fraction cut off toward zero, so that 12.5 counts
    as 12 and 0.5 as 0.  NaN is answered with the status 400 text
    "Quantity must be an integer", 0.0 is reported missing, and an
    infinite float raises OverflowError, which leaves the handler with
    the world untouched.  What is accepted is the integer the row and
    the response carry. *)
Theorem number_quantity_is_converted
  (rt : runtime) (srv : Db.server) (event : pydict) (w : Db.world)
  (p : pydict) (rid name qty : pyval) :
  normalize_parameters event = Return (VDict p) ->
  dict_lookup p (VStr "requisition_id") = Some rid -> truthy rid = true ->
  dict_lookup p (VStr "item_name") = Some name -> truthy name = true ->
  dict_lookup p (VStr "quantity") = Some qty ->
  let mc := dict_get p "material_code" (VStr "") in
  (forall n, qty = VInt n -> n <> 0 ->
             validate rt event = Return (Accepted rid name mc n)) /\
  (qty = VBool true -> validate rt event = Return (Accepted rid name mc 1)) /\
  (forall (negative : bool) (m : positive) (e : Z),
     qty = VFloat (FFinite negative m e) ->
     let magnitude := if 0 <=? e then Z.pos m * 2 ^ e else Z.pos m / 2 ^ (- e) in
     validate rt event =
     Return (Accepted rid name mc (if negative then - magnitude else magnitude))) /\
  (qty = VFloat FNaN ->
   lambda_handler rt srv event w =
   (w, Return (_agent_error event "Quantity must be an integer" (Some 400)))) /\
  (forall negative, qty = VFloat (FZero negative) ->
   lambda_handler rt srv event w =
   (w, Return (_agent_error event "Missing required field(s): quantity"
                 (Some 400)))) /\
  (forall negative, qty = VFloat (FInf negative) ->
   lambda_handler rt srv event w = (w, Raise OverflowError)) /\
  (forall n, validate rt event = Return (Accepted rid name mc n) ->
             succeeds srv (Db.mkrow rid name mc n (Db.utcnow srv)) ->
             Db.table (fst (lambda_handler rt srv event w))
             = (Db.table w ++ [Db.mkrow rid name mc n (Db.utcnow srv)])%list /\
             response_path (snd (lambda_handler rt srv event w))
               (response_body_path ++ ["quantity"])%list
             = Some (VStr (str_of_int n))).
Proof.
  intros Hn H1 T1 H2 T2 H3 mc.
  assert (Hv : truthy qty = true ->
               validate rt event =
               match int rt qty with
               | Return quantity_int =>
                   Return (Accepted rid name mc quantity_int)
               | Raise ValueError =>
                   Return (Rejected (_agent_error event
                                       "Quantity must be an integer" (Some 400)))
               | Raise e => Raise e
               end).
  { intros Ht. exact (validate_present rt event p rid name qty Hn H1 T1 H2 T2 H3 Ht). }
  split; [|split; [|split; [|split; [|split; [|split]]]]].
  - intros n -> Hz. rewrite Hv; [reflexivity|].
    cbn. now apply negb_true_iff, Z.eqb_neq.
  - intros ->. now rewrite Hv.
  - intros negative m e -> magnitude. rewrite Hv by reflexivity.
    cbn [int int_of_float]. subst magnitude.
    destruct (0 <=? e) eqn:He.
    + apply Z.leb_le in He. now rewrite Z.shiftl_mul_pow2.
    + apply Z.leb_gt in He. now rewrite Z.shiftl_div_pow2 by lia.
  - intros ->. unfold lambda_handler. now rewrite Hv.
  - intros negative ->. unfold lambda_handler.
    rewrite (validate_dict rt event p Hn).
    unfold absent_or_falsy, required_fields. cbn [filter].
    rewrite (dict_get_present _ _ _ VNone H1), (dict_get_present _ _ _ VNone H2),
      (dict_get_present _ _ _ VNone H3), T1, T2.
    reflexivity.
  - intros negative ->. unfold lambda_handler. now rewrite Hv.
  - intros n Hacc Hs.
    rewrite (lambda_handler_accepted_ok rt srv event w _ _ _ _ Hacc Hs).
    split; reflexivity.
Qed.

Lemma number_quantity_is_converted_witness :
  validate ascii_runtime (bolt_with_quantity (VFloat (FFinite false 25 (-1))))
  = Return (Accepted (VStr "REQ1") (VStr "Bolt") (VStr "") 12) /\
  validate ascii_runtime (bolt_with_quantity (VInt 12))
  = Return (Accepted (VStr "REQ1") (VStr "Bolt") (VStr "") 12) /\
  lambda_handler ascii_runtime good_server
    (bolt_with_quantity (VFloat (FInf false))) empty_world
  = (empty_world, Raise OverflowError).
Proof.
  split; [|split].
  - exact (proj1 (proj2 (proj2 (number_quantity_is_converted ascii_runtime
                    good_server
                    (bolt_with_quantity (VFloat (FFinite false 25 (-1))))
                    empty_world
                    [(VStr "requisition_id", VStr "REQ1");
                     (VStr "item_name", VStr "Bolt");
                     (VStr "quantity", VFloat (FFinite false 25 (-1)))]
                    (VStr "REQ1") (VStr "Bolt") (VFloat (FFinite false 25 (-1)))
                    eq_refl eq_refl eq_refl eq_refl eq_refl eq_refl)))
             false 25%positive (-1) eq_refl).
  - refine (proj1 (number_quantity_is_converted ascii_runtime good_server
                     (bolt_with_quantity (VInt 12)) empty_world
                     [(VStr "requisition_id", VStr "REQ1");
                      (VStr "item_name", VStr "Bolt"); (VStr "quantity", VInt 12)]
                     (VStr "REQ1") (VStr "Bolt") (VInt 12)
                     eq_refl eq_refl eq_refl eq_refl eq_refl eq_refl)
              12 eq_refl _).
    discriminate.
  - exact (proj1 (proj2 (proj2 (proj2 (proj2 (proj2
             (number_quantity_is_converted ascii_runtime good_server
                (bolt_with_quantity (VFloat (FInf false))) empty_world
                [(VStr "requisition_id", VStr "REQ1");
                 (VStr "item_name", VStr "Bolt");
                 (VStr "quantity", VFloat (FInf false))]
                (VStr "REQ1") (VStr "Bolt") (VFloat (FInf false))
                eq_refl eq_refl eq_refl eq_refl eq_refl eq_refl))))))
             false eq_refl).
Defined.

(* ================================================================== *)
(** ** Further properties: white space around the quantity *)
(* ================================================================== *)

Lemma is_space_facts (c : ascii) :
  is_space c = true ->
  is_underscore c = false /\ digit_value c = None /\ (code c <? 128)%N = true /\
  c <> "+"%char /\ c <> "-"%char.
Proof.
  destruct c as [[] [] [] [] [] [] [] []]; cbn; intros H;
    try discriminate H; repeat split; discriminate.
Qed.

Lemma split_sign_cons (c : ascii) (s : string) :
  split_sign (String c s) =
  if Ascii.eqb c "+" then (1, s)
  else if Ascii.eqb c "-" then (-1, s)
  else (1, String c s).
Proof. destruct c as [[] [] [] [] [] [] [] []]; reflexivity. Qed.

Lemma skip_spaces_all_spaces (t : string) :
  all_spaces t = true -> skip_spaces t = "".
Proof.
  induction t as [|c t IH]; cbn [all_spaces skip_spaces]; [reflexivity|].
  intros H. apply andb_prop in H. destruct H as [Hc Ht]. now rewrite Hc, IH.
Qed.

Lemma skip_spaces_pad_left (ws s : string) :
  all_spaces ws = true -> skip_spaces (ws ++ s) = skip_spaces s.
Proof.
  induction ws as [|c ws IH]; cbn [all_spaces append skip_spaces]; [reflexivity|].
  intros H. apply andb_prop in H. destruct H as [Hc Ht]. now rewrite Hc, IH.
Qed.

Lemma skip_spaces_pad_right (s t : string) :
  all_spaces t = true ->
  skip_spaces (s ++ t) =
  match skip_spaces s with
  | EmptyString => ""
  | String c s' => String c (s' ++ t)
  end.
Proof.
  intros Ht. induction s as [|c s IH]; cbn [append skip_spaces].
  - now apply skip_spaces_all_spaces.
  - destruct (is_space c); [exact IH | reflexivity].
Qed.

Lemma is_ascii_text_app (s t : string) :
  is_ascii_text (s ++ t) = is_ascii_text s && is_ascii_text t.
Proof.
  induction s as [|c s IH]; cbn [append is_ascii_text]; [reflexivity|].
  now rewrite IH, andb_assoc.
Qed.

Lemma all_spaces_ascii (t : string) : all_spaces t = true -> is_ascii_text t = true.
Proof.
  induction t as [|c t IH]; cbn [all_spaces is_ascii_text]; [reflexivity|].
  intros H. apply andb_prop in H. destruct H as [Hc Ht].
  destruct (is_space_facts c Hc) as (_ & _ & -> & _). now apply IH.
Qed.

Lemma starts_with_underscore_pad (s t : string) :
  all_spaces t = true ->
  starts_with_underscore (s ++ t) = starts_with_underscore s.
Proof.
  destruct s as [|c s]; [|reflexivity]. destruct t as [|c t]; [reflexivity|].
  cbn [all_spaces append starts_with_underscore]. intros H.
  apply andb_prop in H. destruct H as [Hc _].
  now destruct (is_space_facts c Hc) as (-> & _).
Qed.

(** White space after the digits is left unread by the scan. *)
Lemma scan_digits_pad (t : string) :
  all_spaces t = true ->
  forall (s : string) (prev : bool) (acc : Z) (k : nat),
    scan_digits (s ++ t) prev acc k =
    match scan_digits s prev acc k with
    | Some (n, digits, rest) => Some (n, digits, rest ++ t)
    | None => None
    end.
Proof.
  intros Ht. induction s as [|c s IH]; intros prev acc k.
  - cbn [append]. destruct t as [|c t]; cbn [scan_digits].
    + now destruct prev.
    + cbn [all_spaces] in Ht. apply andb_prop in Ht. destruct Ht as [Hc _].
      destruct (is_space_facts c Hc) as (-> & -> & _). now destruct prev.
  - cbn [append scan_digits]. destruct (is_underscore c).
    + destruct prev; [reflexivity | apply IH].
    + destruct (digit_value c); [apply IH | now destruct prev].
Qed.

Lemma int_of_ascii_body_pad (sign : Z) (body t : string) :
  all_spaces t = true ->
  (if starts_with_underscore (body ++ t) then Raise ValueError
   else
     match scan_digits (body ++ t) false 0 0 with
     | None => Raise ValueError
     | Some (n, digits, rest) =>
         match digits with
         | O => Raise ValueError
         | S _ =>
             match skip_spaces rest with
             | EmptyString => Return (sign * n)
             | String _ _ => Raise ValueError
             end
         end
     end) =
  (if starts_with_underscore body then Raise ValueError
   else
     match scan_digits body false 0 0 with
     | None => Raise ValueError
     | Some (n, digits, rest) =>
         match digits with
         | O => Raise ValueError
         | S _ =>
             match skip_spaces rest with
             | EmptyString => Return (sign * n)
             | String _ _ => Raise ValueError
             end
         end
     end).
Proof.
  intros Ht. rewrite (starts_with_underscore_pad body t Ht).
  rewrite (scan_digits_pad t Ht).
  destruct (starts_with_underscore body); [reflexivity|].
  destruct (scan_digits body false 0 0) as [[[n digits] rest]|]; [|reflexivity].
  destruct digits; [reflexivity|].
  rewrite (skip_spaces_pad_right rest t Ht). now destruct (skip_spaces rest).
Qed.

Lemma int_of_ascii_pad_right (s t : string) :
  all_spaces t = true -> int_of_ascii (s ++ t) = int_of_ascii s.
Proof.
  intros Ht. unfold int_of_ascii. rewrite (skip_spaces_pad_right s t Ht).
  destruct (skip_spaces s) as [|c body].
  - reflexivity.
  - rewrite !split_sign_cons.
    destruct (Ascii.eqb c "+"); [apply int_of_ascii_body_pad; exact Ht|].
    destruct (Ascii.eqb c "-"); [apply int_of_ascii_body_pad; exact Ht|].
    apply (int_of_ascii_body_pad 1 (String c body) t Ht).
Qed.

(** [int()] of an ASCII text does not see the white space around it. *)
Lemma int_of_str_padded (rt : runtime) (ws q ws' : string) :
  is_ascii_text q = true -> all_spaces ws = true -> all_spaces ws' = true ->
  int_of_str rt (ws ++ q ++ ws') = int_of_str rt q.
Proof.
  intros Hq Hws Hws'. unfold int_of_str.
  rewrite !is_ascii_text_app, Hq, (all_spaces_ascii ws Hws),
    (all_spaces_ascii ws' Hws'). cbn [andb].
  unfold int_of_ascii at 1. rewrite (skip_spaces_pad_left ws _ Hws).
  fold (int_of_ascii (q ++ ws')). now apply int_of_ascii_pad_right.
Qed.

(** X12: white space around a non-empty ASCII [quantity] text changes
    nothing: a request whose [quantity] is the text padded on either
    side with blanks, tabs or line breaks gets the same result and
    leaves the same world as the request with the bare text, the other
    three parameters and the identifiers being the same.  The padding
    is neither stored nor echoed. *)
Theorem quantity_padding_is_ignored
  (rt : runtime) (srv : Db.server) (event event' p p' : pydict) (w : Db.world)
  (q ws ws' : string) :
  normalize_parameters event = Return (VDict p) ->
  normalize_parameters event' = Return (VDict p') ->
  dict_lookup p (VStr "quantity") = Some (VStr q) ->
  dict_lookup p' (VStr "quantity") = Some (VStr (ws ++ q ++ ws')) ->
  q <> "" -> is_ascii_text q = true ->
  all_spaces ws = true -> all_spaces ws' = true ->
  (forall k, In k ["requisition_id"; "item_name"; "material_code"] ->
             dict_lookup p (VStr k) = dict_lookup p' (VStr k)) ->
  dict_lookup event (VStr "actionGroup") = dict_lookup event' (VStr "actionGroup") ->
  dict_lookup event (VStr "function") = dict_lookup event' (VStr "function") ->
  lambda_handler rt srv event w = lambda_handler rt srv event' w.
Proof.
  intros Hn Hn' Hq Hq' Hne Hascii Hws Hws' Hk Ha Hf.
  assert (He : forall message status,
             _agent_error event message status = _agent_error event' message status).
  { intros. unfold _agent_error, dict_get. now rewrite Ha, Hf. }
  assert (Hs : forall rid name mc n,
             success_response rt event rid name mc n
             = success_response rt event' rid name mc n).
  { intros. unfold success_response, dict_get. now rewrite Ha, Hf. }
  assert (Hg : forall k default,
             In k ["requisition_id"; "item_name"; "material_code"] ->
             dict_get p k default = dict_get p' k default).
  { intros k default Hin. apply dict_get_agree. now apply Hk. }
  assert (Ht : truthy (VStr (ws ++ q ++ ws')) = true).
  { destruct ws; [|reflexivity]. destruct q; [congruence | reflexivity]. }
  assert (Hv : validate rt event = validate rt event').
  { rewrite (validate_dict rt event p Hn), (validate_dict rt event' p' Hn').
    unfold absent_or_falsy, required_fields. cbn [filter].
    rewrite !(Hg "requisition_id"), !(Hg "item_name"), !(Hg "material_code")
      by (cbn; auto 10).
    rewrite !(dict_get_present p "quantity" _ _ Hq),
      !(dict_get_present p' "quantity" _ _ Hq').
    rewrite (nonempty_truthy q Hne), Ht. cbn [int].
    rewrite (int_of_str_padded rt ws q ws' Hascii Hws Hws').
    now rewrite !He. }
  unfold lambda_handler. rewrite Hv.
  destruct (validate rt event') as [[early|rid name mc n]|e]; try reflexivity.
  destruct (Db.insert_line_item srv rid name mc n w) as [w' [err|]].
  - now rewrite He.
  - now rewrite Hs.
Qed.

Lemma quantity_padding_is_ignored_witness :
  lambda_handler ascii_runtime good_server (bolt_request "10") empty_world
  = lambda_handler ascii_runtime good_server (bolt_request "  10 ") empty_world.
Proof.
  apply (quantity_padding_is_ignored ascii_runtime good_server
           (bolt_request "10") (bolt_request "  10 ")
           [(VStr "requisition_id", VStr "REQ1"); (VStr "item_name", VStr "Bolt");
            (VStr "quantity", VStr "10"); (VStr "material_code", VStr "MC5")]
           [(VStr "requisition_id", VStr "REQ1"); (VStr "item_name", VStr "Bolt");
            (VStr "quantity", VStr "  10 "); (VStr "material_code", VStr "MC5")]
           empty_world "10" "  " " " eq_refl eq_refl eq_refl eq_refl).
  - discriminate.
  - reflexivity.
  - reflexivity.
  - reflexivity.
  - intros k Hk. cbn in Hk. destruct Hk as [<-|[<-|[<-|[]]]]; reflexivity.
  - reflexivity.
  - reflexivity.
Defined.
